(** * csi-lib-fc: the fibrechannel package, embedded and verified

    The package resolves Fibre Channel block devices from WWN+LUN pairs or
    WWIDs (Attach) and removes them from the SCSI subsystem (Detach).  All
    its contact with the host goes through the [ioHandler] interface, so the
    embedding is a state-and-trace monad over an arbitrary world: every
    handler method may inspect and change the world, and every call to the
    handler is recorded, in order, in the trace of the run.  Calls to glog
    only log and are left out. *)

From Stdlib Require Import String Ascii List Bool Arith NArith.
Import ListNotations.
Local Open Scope list_scope.
Local Open Scope string_scope.

Set Implicit Arguments.

(** ** Go's [strings] package, as far as the package uses it *)

Module strings.

(** [strings.HasPrefix(s, prefix)] *)
Definition HasPrefix (s prefix : string) : bool := String.prefix prefix s.

(** [strings.Contains(s, substr)]: [substr] occurs at some offset of [s]. *)
Fixpoint Contains (s substr : string) : bool :=
  if String.prefix substr s then true
  else match s with
       | EmptyString => false
       | String _ s' => Contains s' substr
       end.

(** [strings.Split(s, sep)] for a separator of one byte (the package only
    splits on "/"): the pieces between the separators, empty pieces kept,
    so the result has one more element than [s] has separators. *)
Fixpoint Split (s : string) (sep : ascii) : list string :=
  match s with
  | EmptyString => [EmptyString]
  | String c s' =>
      if Ascii.eqb c sep then EmptyString :: Split s' sep
      else match Split s' sep with
           | piece :: pieces => String c piece :: pieces
           | [] => [String c EmptyString]
           end
  end.

End strings.

(** ** Values shared with the handler *)

(** Go's [error]: [None] is [nil], [Some msg] an error whose [Error()] text
    is [msg].  The package only tests errors against [nil] and formats them
    with [%v]. *)
Definition error : Type := option string.

Module errors.
Definition New (text : string) : error := Some text.
End errors.

Module fmt.
(** [fmt.Errorf], applied to the text its format and arguments expand to. *)
Definition Errorf (text : string) : error := Some text.
End fmt.

Definition Error (err : error) : string :=
  match err with Some msg => msg | None => "<nil>" end.

Definition is_nil (err : error) : bool :=
  match err with None => true | Some _ => false end.

(** [os.FileInfo]: the package reads nothing but [Name()]. *)
Record FileInfo : Type := mkFileInfo { Name : string }.

(** One call to the handler, with its arguments. *)
Inductive Call : Type :=
| CallReadDir (dirname : string)
| CallLstat (name : string)
| CallEvalSymlinks (path : string)
| CallWriteFile (filename data : string) (perm : N).

(** Permission [0666]. *)
Definition perm0666 : N := 438.

Section Fibrechannel.

(** The host: whatever the handler reads and changes. *)
Variable W : Type.

(** [type ioHandler interface]: every method takes the world and returns
    its Go results with the world it leaves. *)
Record ioHandler : Type := mkIoHandler {
  ReadDir : string -> W -> (list FileInfo * error) * W;
  Lstat : string -> W -> (option FileInfo * error) * W;
  EvalSymlinks : string -> W -> (string * error) * W;
  WriteFile : string -> string -> N -> W -> error * W
}.

(** [type Connector struct] *)
Record Connector : Type := mkConnector {
  VolumeName : string;
  TargetWWNs : list string;
  Lun : string;
  WWIDs : list string;
  io : option ioHandler
}.

(** [&OSioHandler{}], the handler over the real host. *)
Variable OSioHandler : ioHandler.

(** [path.Join] of Go's standard library. *)
Variable path_Join : list string -> string.

(** *** The monad: result, world left, handler calls made *)

Record Run (A : Type) : Type := mkRun {
  value : A;
  final : W;
  calls : list Call
}.

Definition M (A : Type) : Type := W -> Run A.

Definition ret {A} (a : A) : M A := fun w => mkRun a w [].

Definition bind {A B} (m : M A) (k : A -> M B) : M B :=
  fun w =>
    let r1 := m w in
    let r2 := k (value r1) (final r1) in
    mkRun (value r2) (final r2) (calls r1 ++ calls r2)%list.

Notation "x <- m ;; k" := (bind m (fun x => k))
  (at level 61, m at next level, right associativity).
Notation "' pat <- m ;; k" := (bind m (fun x => match x with pat => k end))
  (at level 61, pat pattern, m at next level, right associativity).
Notation "m ;;; k" := (bind m (fun _ => k))
  (at level 61, right associativity).

Definition call_ReadDir (h : ioHandler) (dirname : string)
  : M (list FileInfo * error) :=
  fun w => let r := ReadDir h dirname w in
           mkRun (fst r) (snd r) [CallReadDir dirname].

Definition call_Lstat (h : ioHandler) (name : string)
  : M (option FileInfo * error) :=
  fun w => let r := Lstat h name w in
           mkRun (fst r) (snd r) [CallLstat name].

Definition call_EvalSymlinks (h : ioHandler) (path : string)
  : M (string * error) :=
  fun w => let r := EvalSymlinks h path w in
           mkRun (fst r) (snd r) [CallEvalSymlinks path].

Definition call_WriteFile (h : ioHandler) (filename data : string) (perm : N)
  : M error :=
  fun w => let r := WriteFile h filename data perm w in
           mkRun (fst r) (snd r) [CallWriteFile filename data perm].

(** *** The package *)

(** [findDeviceForPath]: the device behind a linked path, [sdX] for
    [/dev/sdX]. *)
Definition findDeviceForPath (path : string) (io : ioHandler)
  : M (string * error) :=
  '(devicePath, err) <- call_EvalSymlinks io path ;;
  if negb (is_nil err) then ret ("", err)
  else
    let parts := strings.Split devicePath "/" in
    if Nat.eqb (length parts) 3 && strings.HasPrefix (nth 1 parts "") "dev"
    then ret (nth 2 parts "", None)
    else ret ("", errors.New ("Illegal path for device " ++ devicePath)).

(** The [range dirs] loop of [FindMultipathDeviceForDevice]; falling out
    of it reaches the final [return "", nil]. *)
Fixpoint FindMultipathDeviceForDevice_range
  (io : ioHandler) (sysPath disk : string) (dirs : list FileInfo)
  : M (string * error) :=
  match dirs with
  | [] => ret ("", None)
  | f :: dirs' =>
      let name := Name f in
      if strings.HasPrefix name "dm-" then
        '(_, err1) <- call_Lstat io (sysPath ++ name ++ "/slaves/" ++ disk) ;;
        if is_nil err1 then ret ("/dev/" ++ name, None)
        else FindMultipathDeviceForDevice_range io sysPath disk dirs'
      else FindMultipathDeviceForDevice_range io sysPath disk dirs'
  end.

(** [FindMultipathDeviceForDevice]: the devicemapper parent of a device. *)
Definition FindMultipathDeviceForDevice (device : string) (io : ioHandler)
  : M (string * error) :=
  '(disk, err) <- findDeviceForPath device io ;;
  if negb (is_nil err) then ret ("", err)
  else
    let sysPath := "/sys/block/" in
    '(dirs, err2) <- call_ReadDir io sysPath ;;
    if is_nil err2 then FindMultipathDeviceForDevice_range io sysPath disk dirs
    else ret ("", err2).

(** The [range dirs] loop of [scsiHostRescan]. *)
Fixpoint scsiHostRescan_range
  (io : ioHandler) (scsiPath : string) (dirs : list FileInfo) : M unit :=
  match dirs with
  | [] => ret tt
  | f :: dirs' =>
      let name := scsiPath ++ Name f ++ "/scan" in
      let data := "- - -" in
      _ <- call_WriteFile io name data perm0666 ;;
      scsiHostRescan_range io scsiPath dirs'
  end.

Definition scsiHostRescan (io : ioHandler) : M unit :=
  let scsiPath := "/sys/class/scsi_host/" in
  '(dirs, err) <- call_ReadDir io scsiPath ;;
  if is_nil err then scsiHostRescan_range io scsiPath dirs
  else ret tt.

(** The [range dirs] loop of [findDisk]; falling out of it reaches the
    final [return "", ""]. *)
Fixpoint findDisk_range
  (io : ioHandler) (FcPath DevPath : string) (dirs : list FileInfo)
  : M (string * string) :=
  match dirs with
  | [] => ret ("", "")
  | f :: dirs' =>
      let name := Name f in
      if strings.Contains name FcPath then
        '(disk, err1) <- call_EvalSymlinks io (DevPath ++ name) ;;
        if is_nil err1 then
          '(dm, err2) <- FindMultipathDeviceForDevice disk io ;;
          if is_nil err2 then ret (disk, dm)
          else findDisk_range io FcPath DevPath dirs'
        else findDisk_range io FcPath DevPath dirs'
      else findDisk_range io FcPath DevPath dirs'
  end.

(** [findDisk]: given a wwn and lun, the device and its devicemapper
    parent. *)
Definition findDisk (wwn lun : string) (io : ioHandler)
  : M (string * string) :=
  let FcPath := "-fc-0x" ++ wwn ++ "-lun-" ++ lun in
  let DevPath := "/dev/disk/by-path/" in
  '(dirs, err) <- call_ReadDir io DevPath ;;
  if is_nil err then findDisk_range io FcPath DevPath dirs
  else ret ("", "").

(** The [range dirs] loop of [findDiskWWIDs]. *)
Fixpoint findDiskWWIDs_range
  (io : ioHandler) (FcPath DevID : string) (dirs : list FileInfo)
  : M (string * string) :=
  match dirs with
  | [] => ret ("", "")
  | f :: dirs' =>
      let name := Name f in
      if String.eqb name FcPath then
        '(disk, err) <- call_EvalSymlinks io (DevID ++ name) ;;
        if negb (is_nil err) then ret ("", "")
        else
          '(dm, err1) <- FindMultipathDeviceForDevice disk io ;;
          if negb (is_nil err1) then ret (disk, dm)
          else findDiskWWIDs_range io FcPath DevID dirs'
      else findDiskWWIDs_range io FcPath DevID dirs'
  end.

(** [findDiskWWIDs]: given a wwid, the device and its devicemapper
    parent. *)
Definition findDiskWWIDs (wwid : string) (io : ioHandler)
  : M (string * string) :=
  let FcPath := "scsi-" ++ wwid in
  let DevID := "/dev/disk/by-id/" in
  '(dirs, err) <- call_ReadDir io DevID ;;
  if is_nil err then findDiskWWIDs_range io FcPath DevID dirs
  else ret ("", "").

(** The [range diskIds] loop of [searchDisk].  [disk] and [dm] are the
    function's variables: every lookup assigns both, and the loop breaks
    once [dm] is not empty. *)
Fixpoint searchDisk_range
  (c : Connector) (io : ioHandler) (diskIds : list string) (disk dm : string)
  : M (string * string) :=
  match diskIds with
  | [] => ret (disk, dm)
  | diskID :: diskIds' =>
      '(disk, dm) <- (if negb (Nat.eqb (length (TargetWWNs c)) 0)
                      then findDisk diskID (Lun c) io
                      else findDiskWWIDs diskID io) ;;
      if negb (String.eqb dm "") then ret (disk, dm)
      else searchDisk_range c io diskIds' disk dm
  end.

(** The [for true] loop of [searchDisk].  The loop has no bound of its
    own, so the model counts iterations down from [fuel] and answers
    [None] when the count runs out before the loop breaks. *)
Fixpoint searchDisk_for
  (fuel : nat) (c : Connector) (io : ioHandler) (diskIds : list string)
  (rescaned : bool) (disk dm : string) : M (option (string * string)) :=
  match fuel with
  | O => ret None
  | S fuel' =>
      '(disk, dm) <- searchDisk_range c io diskIds disk dm ;;
      if rescaned || negb (String.eqb dm "") then ret (Some (disk, dm))
      else
        scsiHostRescan io ;;;
        searchDisk_for fuel' c io diskIds true disk dm
  end.

Definition searchDisk (fuel : nat) (c : Connector) (io : ioHandler)
  : M (option (string * error)) :=
  let diskIds :=
    if negb (Nat.eqb (length (TargetWWNs c)) 0) then TargetWWNs c
    else WWIDs c in
  found <- searchDisk_for fuel c io diskIds false "" "" ;;
  match found with
  | None => ret None
  | Some (disk, dm) =>
      if String.eqb disk "" && String.eqb dm ""
      then ret (Some ("", fmt.Errorf "no fc disk found"))
      else if negb (String.eqb dm "") then ret (Some (dm, None))
      else ret (Some (disk, None))
  end.

(** The search as the specification words it, for comparison with
    [searchDisk_for]: one pass over the identifiers; when it ends without
    a multipath device, one bus rescan and one more pass. *)
Definition two_phase_search
  (c : Connector) (io : ioHandler) (diskIds : list string)
  : M (string * string) :=
  '(disk, dm) <- searchDisk_range c io diskIds "" "" ;;
  if String.eqb dm "" then
    scsiHostRescan io ;;;
    searchDisk_range c io diskIds disk dm
  else ret (disk, dm).

(** [Attach]: attach a fc volume using the Connector info. *)
Definition Attach (fuel : nat) (c : Connector) (io : option ioHandler)
  : M (option (string * error)) :=
  let io := match io with None => OSioHandler | Some h => h end in
  found <- searchDisk fuel c io ;;
  match found with
  | None => ret None
  | Some (devicePath, err) =>
      if negb (is_nil err) then ret (Some ("", err))
      else ret (Some (devicePath, None))
  end.

(** The [range files] loop of [FindSlaveDevicesOnMultipath]. *)
Fixpoint FindSlaveDevicesOnMultipath_range
  (files : list FileInfo) (devices : list string) : list string :=
  match files with
  | [] => devices
  | f :: files' =>
      FindSlaveDevicesOnMultipath_range files'
        (devices ++ [path_Join ["/dev/"; Name f]])%list
  end.

(** [FindSlaveDevicesOnMultipath]: all slaves of a multipath device. *)
Definition FindSlaveDevicesOnMultipath (dm : string) (io : ioHandler)
  : M (list string) :=
  let devices : list string := [] in
  let parts := strings.Split dm "/" in
  if negb (Nat.eqb (length parts) 3)
     || negb (strings.HasPrefix (nth 1 parts "") "dev")
  then ret devices
  else
    let disk := nth 2 parts "" in
    let slavesPath := path_Join ["/sys/block/"; disk; "/slaves/"] in
    '(files, err) <- call_ReadDir io slavesPath ;;
    if is_nil err then ret (FindSlaveDevicesOnMultipath_range files devices)
    else ret devices.

(** [removeFromScsiSubsystem]: the result of the write is dropped. *)
Definition removeFromScsiSubsystem (deviceName : string) (io : ioHandler)
  : M unit :=
  let fileName := "/sys/block/" ++ deviceName ++ "/device/delete" in
  let data := "1" in
  _ <- call_WriteFile io fileName data perm0666 ;;
  ret tt.

(** [detachFCDisk]: remove a scsi device file such as [/dev/sdX]. *)
Definition detachFCDisk (devicePath : string) (io : ioHandler) : M error :=
  if negb (strings.HasPrefix devicePath "/dev/")
  then ret (fmt.Errorf ("fc detach disk: invalid device name: " ++ devicePath))
  else
    let arr := strings.Split devicePath "/" in
    let dev := nth (length arr - 1) arr "" in
    removeFromScsiSubsystem dev io ;;;
    ret None.

(** The [range devices] loop of [Detach], over its variable [lastErr]. *)
Fixpoint Detach_range
  (io : ioHandler) (devices : list string) (lastErr : error) : M error :=
  match devices with
  | [] => ret lastErr
  | device :: devices' =>
      err <- detachFCDisk device io ;;
      if negb (is_nil err) then
        Detach_range io devices'
          (fmt.Errorf ("fc: detachFCDisk failed. device: " ++ device
                       ++ " err: " ++ Error err))
      else Detach_range io devices' lastErr
  end.

(** [Detach]: detach a volume. *)
Definition Detach (devicePath : string) (io : option ioHandler) : M error :=
  let io := match io with None => OSioHandler | Some h => h end in
  '(dstPath, err) <- call_EvalSymlinks io devicePath ;;
  if negb (is_nil err) then ret err
  else
    devices <- (if strings.HasPrefix dstPath "/dev/dm-"
                then FindSlaveDevicesOnMultipath dstPath io
                else ret ([] ++ [dstPath])%list) ;;
    lastErr <- Detach_range io devices None ;;
    if negb (is_nil lastErr) then ret lastErr
    else ret None.

End Fibrechannel.

(** ** The example program *)

Section Example.

Variable W : Type.
Variable OSioHandler : ioHandler W.
Variable path_Join : list string -> string.

(** [main] of the example: attach the volume behind two target WWNs at
    LUN 1 through the OS handler, then detach the path that came back,
    whether or not the attach reported an error.  [fuel] bounds the loop of
    the search as in [searchDisk]. *)
Definition main (fuel : nat) : M W (option unit) :=
  let c :=
    mkConnector "" ["10000000c9a02834"; "10000000c9a02835"] "1" [] None in
  bind (Attach OSioHandler fuel c (Some OSioHandler)) (fun attached =>
  match attached with
  | None => ret None
  | Some (dp, err) =>
      bind (Detach OSioHandler path_Join dp (Some OSioHandler)) (fun _ =>
      ret (Some tt))
  end).

End Example.


(** ** Go's [path.Join], for runs on a concrete host *)

Module gopath.

Definition join_segments (segs : list string) : string :=
  String.concat "/" segs.

(** One element of the path scanned by [path.Clean], against the elements
    kept so far (last kept first). *)
Definition clean_step (rooted : bool) (kept : list string) (seg : string)
  : list string :=
  if String.eqb seg "" || String.eqb seg "." then kept
  else if String.eqb seg ".." then
    match kept with
    | top :: below =>
        if String.eqb top ".." then seg :: kept else below
    | [] => if rooted then kept else [seg]
    end
  else seg :: kept.

(** [path.Clean] *)
Definition Clean (path : string) : string :=
  match path with
  | EmptyString => "."
  | String c _ =>
      let rooted := Ascii.eqb c "/" in
      let kept :=
        rev (fold_left (clean_step rooted) (strings.Split path "/") []) in
      if rooted then "/" ++ join_segments kept
      else match kept with [] => "." | _ => join_segments kept end
  end.

(** [path.Join]: the non-empty elements joined by slashes, then cleaned;
    the empty string when there is none. *)
Definition Join (elem : list string) : string :=
  match filter (fun e => negb (String.eqb e "")) elem with
  | [] => ""
  | elems => Clean (join_segments elems)
  end.

End gopath.

(** ** A host in memory

    Directory listings, symlinks and existing nodes as association lists; a
    write to a [scan] file makes the pending entries visible, a write to a
    protected file fails. *)

Module Host.

Record t : Type := mk {
  dirs : list (string * list string);
  links : list (string * string);
  nodes : list string;
  protected : list string;
  pending_dirs : list (string * list string);
  pending_links : list (string * string);
  pending_nodes : list string;
  written : list (string * string)
}.

Fixpoint lookup {A} (k : string) (l : list (string * A)) : option A :=
  match l with
  | [] => None
  | (k', v) :: l' => if String.eqb k k' then Some v else lookup k l'
  end.

Definition mem (k : string) (l : list string) : bool :=
  existsb (String.eqb k) l.

Fixpoint HasSuffix (s suffix : string) : bool :=
  if String.eqb s suffix then true
  else match s with
       | EmptyString => false
       | String _ s' => HasSuffix s' suffix
       end.

Definition readDir (dirname : string) (w : t)
  : (list FileInfo * error) * t :=
  match lookup dirname (dirs w) with
  | Some names => ((map mkFileInfo names, None), w)
  | None => (([], Some ("open " ++ dirname ++ ": no such file or directory")), w)
  end.

Definition lstat (name : string) (w : t)
  : (option FileInfo * error) * t :=
  if mem name (nodes w) then ((Some (mkFileInfo name), None), w)
  else ((None, Some ("lstat " ++ name ++ ": no such file or directory")), w).

Definition evalSymlinks (path : string) (w : t) : (string * error) * t :=
  match lookup path (links w) with
  | Some target => ((target, None), w)
  | None =>
      if mem path (nodes w) then ((path, None), w)
      else (("", Some ("lstat " ++ path ++ ": no such file or directory")), w)
  end.

Definition writeFile (filename data : string) (perm : N) (w : t)
  : error * t :=
  if mem filename (protected w)
  then (Some ("open " ++ filename ++ ": permission denied"), w)
  else if HasSuffix filename "/scan" then
    (None,
     mk (pending_dirs w ++ dirs w)%list (pending_links w ++ links w)%list
        (pending_nodes w ++ nodes w)%list (protected w) [] [] []
        (written w ++ [(filename, data)])%list)
  else
    (None,
     mk (dirs w) (links w) (nodes w) (protected w)
        (pending_dirs w) (pending_links w) (pending_nodes w)
        (written w ++ [(filename, data)])%list).

Definition handler : ioHandler t :=
  mkIoHandler readDir lstat evalSymlinks writeFile.

(** Two FC paths to one volume under [dm-0], a lone raw disk [sdc], a
    by-id link into a deeper directory, a volume link outside [/dev], and
    a volume that only a bus rescan brings up.  Writes to the delete file
    of [sdb] and to the scan file of [host5] fail. *)
Definition fabric : t :=
  mk [("/dev/disk/by-path/",
       ["pci-0000:05:00.0-fc-0x10000000c9a02834-lun-1";
        "pci-0000:05:00.1-fc-0x10000000c9a02835-lun-1";
        "pci-0000:05:00.0-fc-0x20000000c9a02834-lun-2"]);
      ("/dev/disk/by-id/",
       ["scsi-3600508b400105e210000900000490000";
        "scsi-3600508b400105e210000900000490001"]);
      ("/sys/block/", ["sda"; "sdb"; "sdc"; "dm-1"; "dm-0"]);
      ("/sys/block/dm-0/slaves", ["sda"; "sdb"]);
      ("/sys/class/scsi_host/", ["host5"; "host6"])]
     [("/dev/disk/by-path/pci-0000:05:00.0-fc-0x10000000c9a02834-lun-1",
       "/dev/sda");
      ("/dev/disk/by-path/pci-0000:05:00.1-fc-0x10000000c9a02835-lun-1",
       "/dev/sdb");
      ("/dev/disk/by-path/pci-0000:05:00.0-fc-0x20000000c9a02834-lun-2",
       "/dev/sdc");
      ("/dev/disk/by-id/scsi-3600508b400105e210000900000490000",
       "/dev/sdc");
      ("/dev/disk/by-id/scsi-3600508b400105e210000900000490001",
       "/dev/block/8:48");
      ("/dev/mapper/mpatha", "/dev/dm-0");
      ("/var/lib/kubelet/vol", "/mnt/disk")]
     ["/dev/sda"; "/dev/sdb"; "/dev/sdc"; "/dev/dm-0"; "/dev/block/8:48";
      "/sys/block/dm-0/slaves/sda"; "/sys/block/dm-0/slaves/sdb"]
     ["/sys/block/sdb/device/delete"; "/sys/class/scsi_host/host5/scan"]
     [("/dev/disk/by-path/",
       ["pci-0000:05:00.0-fc-0x10000000c9a02834-lun-1";
        "pci-0000:05:00.1-fc-0x10000000c9a02835-lun-1";
        "pci-0000:05:00.0-fc-0x20000000c9a02834-lun-2";
        "pci-0000:05:00.1-fc-0x30000000c9a02835-lun-3"])]
     [("/dev/disk/by-path/pci-0000:05:00.1-fc-0x30000000c9a02835-lun-3",
       "/dev/sdd")]
     ["/dev/sdd"]
     [].

Definition connector (wwns : list string) (lun : string) (wwids : list string)
  : Connector t :=
  mkConnector "vol" wwns lun wwids None.

End Host.

(** A host with nothing on it: every listing and every resolution fails. *)
Definition bare_host : Host.t := Host.mk [] [] [] [] [] [] [] [].

(** A host with stale entries: a by-path link and a by-id link that dangle,
    a second by-path link for the same WWN and LUN that resolves to [sdc],
    and a multipath node [dm-1] whose slaves directory is gone. *)
Definition stale_host : Host.t :=
  Host.mk
    [("/dev/disk/by-path/",
      ["pci-0000:05:00.0-fc-0x50000000c9a02834-lun-5";
       "pci-0000:05:00.1-fc-0x50000000c9a02834-lun-5"]);
     ("/dev/disk/by-id/",
      ["scsi-3600508b400105e210000900000490005";
       "scsi-3600508b400105e210000900000490006"]);
     ("/sys/block/", ["sdc"; "dm-1"])]
    [("/dev/disk/by-path/pci-0000:05:00.1-fc-0x50000000c9a02834-lun-5",
      "/dev/sdc");
     ("/dev/disk/by-id/scsi-3600508b400105e210000900000490006", "/dev/sdc");
     ("/dev/mapper/mpathb", "/dev/dm-1")]
    ["/dev/sdc"; "/dev/dm-1"]
    [] [] [] [] [].


(** A host with two multipath devices: [dm-2] over the paths [sda], [sdb]
    and [sdc], where the write to the delete file of [sdb] is denied; and
    [dm-3], whose slaves listing has the entries [..] and [.] among the
    disks [sdd], [sde] and [sdf]. *)
Definition multipath_host : Host.t :=
  Host.mk
    [("/sys/block/", ["sda"; "sdb"; "sdc"; "sdd"; "sde"; "sdf"; "dm-2"; "dm-3"]);
     ("/sys/block/dm-2/slaves", ["sda"; "sdb"; "sdc"]);
     ("/sys/block/dm-3/slaves", ["sdd"; ".."; "sde"; "."; "sdf"])]
    [("/dev/mapper/mpathc", "/dev/dm-2");
     ("/dev/mapper/mpathd", "/dev/dm-3")]
    ["/dev/sda"; "/dev/sdb"; "/dev/sdc"; "/dev/sdd"; "/dev/sde"; "/dev/sdf";
     "/dev/dm-2"; "/dev/dm-3"]
    ["/sys/block/sdb/device/delete"]
    [] [] [] [].


(** ** Notions used to state the properties *)

(** The bus rescan opens with the listing of [/sys/class/scsi_host/], a
    call nothing else in the package makes: the rescans of a run are
    counted by it. *)
Definition is_rescan_listing (c : Call) : bool :=
  match c with
  | CallReadDir dirname => String.eqb dirname "/sys/class/scsi_host/"
  | _ => false
  end.

Definition rescans (t : list Call) : nat :=
  length (filter is_rescan_listing t).


Section Notions.

Variable W : Type.
Variable io : ioHandler W.

(** [no_parent_among disk entries w w']: scanning [entries] of
    [/sys/block/] from world [w], in order, no entry is a [dm-] node with
    [disk] among its slaves; the probes leave the world [w']. *)
Inductive no_parent_among (disk : string)
  : list FileInfo -> W -> W -> Prop :=
| npa_done : forall w, no_parent_among disk [] w w
| npa_other : forall f entries w w',
    strings.HasPrefix (Name f) "dm-" = false ->
    no_parent_among disk entries w w' ->
    no_parent_among disk (f :: entries) w w'
| npa_absent : forall f entries w w',
    strings.HasPrefix (Name f) "dm-" = true ->
    is_nil (snd (fst (Lstat io ("/sys/block/" ++ Name f ++ "/slaves/" ++ disk) w)))
      = false ->
    no_parent_among disk entries
      (snd (Lstat io ("/sys/block/" ++ Name f ++ "/slaves/" ++ disk) w)) w' ->
    no_parent_among disk (f :: entries) w w'.

(** [attempt_all devices]: [detachFCDisk] run on every device, in
    order, whatever the earlier ones returned; each device is paired with
    what its removal returned. *)
Fixpoint attempt_all (devices : list string) : M W (list (string * error)) :=
  match devices with
  | [] => ret []
  | device :: devices' =>
      bind (detachFCDisk device io) (fun err =>
      bind (attempt_all devices') (fun outcomes =>
      ret ((device, err) :: outcomes)))
  end.

(** The error [Detach] keeps for a device whose removal returned [err]. *)
Definition detach_failure (device : string) (err : error) : error :=
  fmt.Errorf ("fc: detachFCDisk failed. device: " ++ device
              ++ " err: " ++ Error err).

(** The failure kept after a run of removals: that of the last device
    whose removal failed, [lastErr] when none did. *)
Fixpoint last_failure (outcomes : list (string * error)) (lastErr : error)
  : error :=
  match outcomes with
  | [] => lastErr
  | (device, err) :: outcomes' =>
      last_failure outcomes'
        (if is_nil err then lastErr else detach_failure device err)
  end.

(** A computation that never lists the SCSI hosts. *)
Definition quiet {A} (m : M W A) : Prop :=
  forall w, rescans (calls (m w)) = 0.

End Notions.

(** ** Notions for the shape of paths and of runs *)

(** [free_of sep s]: the byte [sep] does not occur in [s]. *)
Fixpoint free_of (sep : ascii) (s : string) : bool :=
  match s with
  | EmptyString => true
  | String c s' => negb (Ascii.eqb c sep) && free_of sep s'
  end.

(** A write of the rescan trigger to the scan file of a SCSI host. *)
Definition scan_write (c : Call) : Prop :=
  exists host,
    c = CallWriteFile ("/sys/class/scsi_host/" ++ host ++ "/scan") "- - -"
          perm0666.

(** A write of the removal trigger to the delete file of a block device. *)
Definition delete_write (c : Call) : Prop :=
  exists leaf,
    c = CallWriteFile ("/sys/block/" ++ leaf ++ "/device/delete") "1" perm0666.

(** A call that reads the host and changes no file. *)
Definition reads_only (c : Call) : Prop :=
  match c with
  | CallWriteFile _ _ _ => False
  | _ => True
  end.

(** A probe of a slave link under a [dm-] node. *)
Definition slave_probe (c : Call) : Prop :=
  match c with
  | CallLstat name =>
      exists dm disk,
        strings.HasPrefix dm "dm-" = true
        /\ name = "/sys/block/" ++ dm ++ "/slaves/" ++ disk
  | _ => True
  end.

(** What a search may do: read, probe slave links, trigger a rescan. *)
Definition search_call (c : Call) : Prop :=
  match c with
  | CallWriteFile _ _ _ => scan_write c
  | _ => slave_probe c
  end.

(** What a detach may do: resolve, list, write removal triggers. *)
Definition detach_call (c : Call) : Prop :=
  match c with
  | CallWriteFile _ _ _ => delete_write c
  | CallLstat _ => False
  | _ => True
  end.

(** What a lookup may do: read, and probe slave links. *)
Definition probe_call (c : Call) : Prop := reads_only c /\ slave_probe c.


Section RunShapes.

Variable W : Type.

(** Every handler call of [m], from any world, satisfies [P]. *)
Definition all_calls {A} (P : Call -> Prop) (m : M W A) : Prop :=
  forall w, Forall P (calls (m w)).

End RunShapes.


(** ** Properties *)

(** *** Go's string functions *)

Section StringFacts.

Lemma prefix_app (p r : string) : String.prefix p (p ++ r) = true.
Proof.
  induction p as [|c p IH]; simpl.
  - destruct r; reflexivity.
  - destruct (ascii_dec c c) as [_|n]; [exact IH | now elim n].
Qed.

Lemma prefix_split (p s : string) :
  String.prefix p s = true -> exists r, s = p ++ r.
Proof.
  revert s. induction p as [|c p IH]; intros s H.
  - exists s. reflexivity.
  - destruct s as [|d s]; simpl in H; [discriminate|].
    destruct (ascii_dec c d) as [->|]; [|discriminate].
    destruct (IH _ H) as [r ->]. exists r. reflexivity.
Qed.

Lemma HasPrefix_iff (s p : string) :
  strings.HasPrefix s p = true <-> exists r, s = p ++ r.
Proof.
  unfold strings.HasPrefix. split.
  - apply prefix_split.
  - intros [r ->]. apply prefix_app.
Qed.

(** [Contains] is the unanchored substring test. *)
Lemma Contains_iff (s sub : string) :
  strings.Contains s sub = true <-> exists a b, s = a ++ sub ++ b.
Proof.
  split.
  - induction s as [|c s IH]; intros H.
    + unfold strings.Contains in H.
      destruct (String.prefix sub "") eqn:E; [|discriminate].
      destruct (prefix_split _ _ E) as [r Hr].
      exists "", r. exact Hr.
    + change (strings.Contains (String c s) sub)
        with (if String.prefix sub (String c s) then true
              else strings.Contains s sub) in H.
      destruct (String.prefix sub (String c s)) eqn:E.
      * destruct (prefix_split _ _ E) as [r Hr].
        exists "", r. exact Hr.
      * destruct (IH H) as (a & b & ->).
        exists (String c a), b. reflexivity.
  - intros (a & b & ->). induction a as [|c a IH].
    + change ("" ++ sub ++ b) with (sub ++ b).
      destruct (sub ++ b) eqn:E; unfold strings.Contains; fold strings.Contains;
        rewrite <- E, prefix_app; reflexivity.
    + change (strings.Contains (String c a ++ sub ++ b) sub)
        with (if String.prefix sub (String c (a ++ sub ++ b)) then true
              else strings.Contains (a ++ sub ++ b) sub).
      rewrite IH. destruct (String.prefix sub _); reflexivity.
Qed.

Lemma Split_nonempty (s : string) (sep : ascii) : strings.Split s sep <> [].
Proof.
  destruct s as [|c s]; simpl; [discriminate|].
  destruct (Ascii.eqb c sep); [discriminate|].
  destruct (strings.Split s sep); discriminate.
Qed.

End StringFacts.

Unset Implicit Arguments.

Section Properties.

Variable W : Type.
Variable OSioHandler : ioHandler W.
Variable path_Join : list string -> string.

Implicit Types (io : ioHandler W) (w : W).

(** Reduce the monad's plumbing and nothing of the package. *)
Ltac run_simpl :=
  cbn [fst snd value final calls negb is_nil ret bind app
       call_ReadDir call_Lstat call_EvalSymlinks call_WriteFile].

(** *** Path parsing *)

Lemma findDeviceForPath_resolved io path w devicePath w1 :
  EvalSymlinks io path w = ((devicePath, None), w1) ->
  findDeviceForPath path io w =
  mkRun
    (let parts := strings.Split devicePath "/" in
     if Nat.eqb (length parts) 3 && strings.HasPrefix (nth 1 parts "") "dev"
     then (nth 2 parts "", None)
     else ("", errors.New ("Illegal path for device " ++ devicePath)))
    w1 [CallEvalSymlinks path].
Proof.
  intros H. unfold findDeviceForPath, bind, call_EvalSymlinks.
  rewrite H. cbn.
  destruct (Nat.eqb _ 3 && _); reflexivity.
Qed.

(** C5. Once the symlink is resolved, [findDeviceForPath] returns the
    third segment of the resolved path when the path splits on "/" into
    exactly three segments and the second one has prefix "dev"; for any
    other number of segments, or a second segment without that prefix, it
    returns the error "Illegal path for device ...". *)
Theorem findDeviceForPath_three_segments io path w devicePath w1 :
  EvalSymlinks io path w = ((devicePath, None), w1) ->
  (forall first second third,
      strings.Split devicePath "/" = [first; second; third] ->
      strings.HasPrefix second "dev" = true ->
      value (findDeviceForPath path io w) = (third, None))
  /\
  (length (strings.Split devicePath "/") <> 3
   \/ strings.HasPrefix (nth 1 (strings.Split devicePath "/") "") "dev" = false ->
   value (findDeviceForPath path io w)
   = ("", errors.New ("Illegal path for device " ++ devicePath))).
Proof.
  intros H. rewrite (findDeviceForPath_resolved _ _ _ _ _ H). cbn [value].
  split.
  - intros first second third Hs Hp. rewrite Hs.
    change (nth 1 [first; second; third] "") with second.
    rewrite Hp. reflexivity.
  - intros [Hl | Hp].
    + apply Nat.eqb_neq in Hl. rewrite Hl. reflexivity.
    + rewrite Hp, andb_false_r. reflexivity.
Qed.

(** *** The multipath parent *)

Lemma FindMultipathDeviceForDevice_range_skip io disk pre rest w w' :
  no_parent_among io disk pre w w' ->
  value (FindMultipathDeviceForDevice_range io "/sys/block/" disk (pre ++ rest)%list w)
  = value (FindMultipathDeviceForDevice_range io "/sys/block/" disk rest w').
Proof.
  induction 1 as [w | f entries w w' Hf _ IH | f entries w w' Hf Hl _ IH].
  - reflexivity.
  - cbn. rewrite Hf. exact IH.
  - cbn. rewrite Hf. unfold bind, call_Lstat. cbn.
    destruct (Lstat io _ w) as [[info err1] w1]. cbn in *.
    rewrite Hl. cbn. exact IH.
Qed.

Lemma FindMultipathDeviceForDevice_parsed io device w disk w1 t1 :
  findDeviceForPath device io w = mkRun (disk, None) w1 t1 ->
  value (FindMultipathDeviceForDevice device io w)
  = let listing := ReadDir io "/sys/block/" w1 in
    if is_nil (snd (fst listing))
    then value (FindMultipathDeviceForDevice_range io "/sys/block/" disk
                  (fst (fst listing)) (snd listing))
    else ("", snd (fst listing)).
Proof.
  intros H. unfold FindMultipathDeviceForDevice, bind. rewrite H. cbn.
  unfold call_ReadDir. cbn.
  destruct (ReadDir io "/sys/block/" w1) as [[dirs err2] w2]. cbn.
  destruct err2; reflexivity.
Qed.

(** C6. With the device parsed to [disk], [FindMultipathDeviceForDevice]
    returns the listing error when [/sys/block/] cannot be listed;
    ["/dev/" ++ name] for the first entry, in listing order, whose name
    has prefix "dm-" and under which [slaves/disk] exists; and the empty
    string with no error when no entry is such a parent. *)
Theorem FindMultipathDeviceForDevice_first_parent io device w disk w1 t1 :
  findDeviceForPath device io w = mkRun (disk, None) w1 t1 ->
  (forall dirs e w2,
      ReadDir io "/sys/block/" w1 = ((dirs, Some e), w2) ->
      value (FindMultipathDeviceForDevice device io w) = ("", Some e))
  /\
  (forall pre f post w2 w3,
      ReadDir io "/sys/block/" w1 = ((pre ++ f :: post)%list, None, w2) ->
      no_parent_among io disk pre w2 w3 ->
      strings.HasPrefix (Name f) "dm-" = true ->
      is_nil (snd (fst (Lstat io ("/sys/block/" ++ Name f ++ "/slaves/" ++ disk) w3)))
        = true ->
      value (FindMultipathDeviceForDevice device io w) = ("/dev/" ++ Name f, None))
  /\
  (forall dirs w2 w3,
      ReadDir io "/sys/block/" w1 = ((dirs, None), w2) ->
      no_parent_among io disk dirs w2 w3 ->
      value (FindMultipathDeviceForDevice device io w) = ("", None)).
Proof.
  intros H. rewrite (FindMultipathDeviceForDevice_parsed _ _ _ _ _ _ H).
  repeat split.
  - intros dirs e w2 Hr. rewrite Hr. reflexivity.
  - intros pre f post w2 w3 Hr Hpre Hf Hl. rewrite Hr. cbn.
    rewrite (FindMultipathDeviceForDevice_range_skip _ _ _ _ _ _ Hpre). cbn.
    rewrite Hf. unfold bind, call_Lstat. cbn.
    destruct (Lstat io _ w3) as [[info err1] w4]. cbn in *.
    rewrite Hl. reflexivity.
  - intros dirs w2 w3 Hr Hdirs. rewrite Hr. cbn.
    rewrite <- (app_nil_r dirs).
    rewrite (FindMultipathDeviceForDevice_range_skip _ _ _ _ _ _ Hdirs). reflexivity.
Qed.

(** *** The two lookups *)

Lemma findDisk_listed io wwn lun w dirs w1 :
  ReadDir io "/dev/disk/by-path/" w = ((dirs, None), w1) ->
  findDisk wwn lun io w
  = let r := findDisk_range io ("-fc-0x" ++ wwn ++ "-lun-" ++ lun)
               "/dev/disk/by-path/" dirs w1 in
    mkRun (value r) (final r) (CallReadDir "/dev/disk/by-path/" :: calls r).
Proof.
  intros H. unfold findDisk, bind, call_ReadDir. rewrite H. reflexivity.
Qed.

Lemma findDiskWWIDs_listed io wwid w dirs w1 :
  ReadDir io "/dev/disk/by-id/" w = ((dirs, None), w1) ->
  findDiskWWIDs wwid io w
  = let r := findDiskWWIDs_range io ("scsi-" ++ wwid)
               "/dev/disk/by-id/" dirs w1 in
    mkRun (value r) (final r) (CallReadDir "/dev/disk/by-id/" :: calls r).
Proof.
  intros H. unfold findDiskWWIDs, bind, call_ReadDir. rewrite H. reflexivity.
Qed.

Lemma findDisk_range_skip io FcPath DevPath pre rest w :
  (forall g, In g pre -> strings.Contains (Name g) FcPath = false) ->
  findDisk_range io FcPath DevPath (pre ++ rest)%list w
  = findDisk_range io FcPath DevPath rest w.
Proof.
  induction pre as [|g pre IH]; intros Hpre; [reflexivity|].
  cbn. rewrite (Hpre g (or_introl eq_refl)).
  apply IH. intros g' Hg'. apply Hpre. right. exact Hg'.
Qed.

Lemma findDiskWWIDs_range_skip io FcPath DevID pre rest w :
  (forall g, In g pre -> Name g <> FcPath) ->
  findDiskWWIDs_range io FcPath DevID (pre ++ rest)%list w
  = findDiskWWIDs_range io FcPath DevID rest w.
Proof.
  induction pre as [|g pre IH]; intros Hpre; [reflexivity|].
  cbn. destruct (String.eqb_spec (Name g) FcPath) as [E|_].
  - elim (Hpre g (or_introl eq_refl) E).
  - apply IH. intros g' Hg'. apply Hpre. right. exact Hg'.
Qed.

Lemma findDiskWWIDs_range_miss io FcPath DevID dirs w :
  (forall g, In g dirs -> Name g <> FcPath) ->
  findDiskWWIDs_range io FcPath DevID dirs w = mkRun ("", "") w [].
Proof.
  intros H. rewrite <- (app_nil_r dirs).
  rewrite (findDiskWWIDs_range_skip _ _ _ _ _ _ H). reflexivity.
Qed.

(** C4. In [findDiskWWIDs], when the entry named exactly "scsi-<wwid>" is
    reached and its symlink resolves to [disk], the pair [(disk, dm)] is
    returned only when the multipath-parent lookup returns an error; when
    that lookup succeeds its result is dropped and the scan goes on with
    the entries that follow, ending in the empty pair when none of them
    has the name. *)
Theorem findDiskWWIDs_returns_on_lookup_error
  io wwid w pre f post w1 disk w2 :
  ReadDir io "/dev/disk/by-id/" w = ((pre ++ f :: post)%list, None, w1) ->
  (forall g, In g pre -> Name g <> "scsi-" ++ wwid) ->
  Name f = "scsi-" ++ wwid ->
  EvalSymlinks io ("/dev/disk/by-id/" ++ Name f) w1 = ((disk, None), w2) ->
  let parent := FindMultipathDeviceForDevice disk io w2 in
  (forall dm e,
      value parent = (dm, Some e) ->
      value (findDiskWWIDs wwid io w) = (disk, dm))
  /\
  (forall dm,
      value parent = (dm, None) ->
      value (findDiskWWIDs wwid io w)
      = value (findDiskWWIDs_range io ("scsi-" ++ wwid) "/dev/disk/by-id/"
                 post (final parent))
      /\
      ((forall g, In g post -> Name g <> "scsi-" ++ wwid) ->
       value (findDiskWWIDs wwid io w) = ("", ""))).
Proof.
  intros Hr Hpre Hf He parent.
  assert (Hv : value (findDiskWWIDs wwid io w)
               = if negb (is_nil (snd (value parent)))
                 then (disk, fst (value parent))
                 else value (findDiskWWIDs_range io ("scsi-" ++ wwid)
                               "/dev/disk/by-id/" post (final parent))).
  { rewrite (findDiskWWIDs_listed _ _ _ _ _ Hr). cbn [value].
    rewrite (findDiskWWIDs_range_skip _ _ _ _ _ _ Hpre).
    cbn [findDiskWWIDs_range]. cbv zeta.
    destruct (String.eqb_spec (Name f) ("scsi-" ++ wwid)) as [_|n]; [|elim (n Hf)].
    unfold bind at 1, call_EvalSymlinks. rewrite He. run_simpl.
    fold parent. destruct (value parent) as [dm' [e'|]]; reflexivity. }
  rewrite Hv. split.
  - intros dm e E. rewrite E. reflexivity.
  - intros dm E. rewrite E. cbn [snd is_nil negb]. split; [reflexivity|].
    intros Hpost.
    rewrite (findDiskWWIDs_range_miss _ _ _ _ _ Hpost). reflexivity.
Qed.

(** C7. The first candidate that [findDisk] reaches in the by-path
    listing is resolved whenever its name contains the fragment
    "-fc-0x<wwn>-lun-<lun>" anywhere, and passed over otherwise; the
    first candidate that [findDiskWWIDs] reaches in the by-id listing is
    resolved only when its name is "scsi-<wwid>" itself, and passed over
    for every other name. *)
Theorem lookups_match_asymmetrically io w pre f post w1 :
  (forall wwn lun,
      ReadDir io "/dev/disk/by-path/" w = ((pre ++ f :: post)%list, None, w1) ->
      (forall g, In g pre ->
                 ~ exists a b, Name g = a ++ ("-fc-0x" ++ wwn ++ "-lun-" ++ lun) ++ b) ->
      ((exists a b, Name f = a ++ ("-fc-0x" ++ wwn ++ "-lun-" ++ lun) ++ b) ->
       exists t,
         calls (findDisk wwn lun io w)
         = CallReadDir "/dev/disk/by-path/"
             :: CallEvalSymlinks ("/dev/disk/by-path/" ++ Name f) :: t)
      /\
      (~ (exists a b, Name f = a ++ ("-fc-0x" ++ wwn ++ "-lun-" ++ lun) ++ b) ->
       findDisk wwn lun io w
       = let r := findDisk_range io ("-fc-0x" ++ wwn ++ "-lun-" ++ lun)
                    "/dev/disk/by-path/" post w1 in
         mkRun (value r) (final r) (CallReadDir "/dev/disk/by-path/" :: calls r)))
  /\
  (forall wwid,
      ReadDir io "/dev/disk/by-id/" w = ((pre ++ f :: post)%list, None, w1) ->
      (forall g, In g pre -> Name g <> "scsi-" ++ wwid) ->
      (Name f = "scsi-" ++ wwid ->
       exists t,
         calls (findDiskWWIDs wwid io w)
         = CallReadDir "/dev/disk/by-id/"
             :: CallEvalSymlinks ("/dev/disk/by-id/" ++ Name f) :: t)
      /\
      (Name f <> "scsi-" ++ wwid ->
       findDiskWWIDs wwid io w
       = let r := findDiskWWIDs_range io ("scsi-" ++ wwid)
                    "/dev/disk/by-id/" post w1 in
         mkRun (value r) (final r) (CallReadDir "/dev/disk/by-id/" :: calls r))).
Proof.
  split.
  - intros wwn lun Hr Hpre.
    assert (Hpre' : forall g, In g pre ->
              strings.Contains (Name g) ("-fc-0x" ++ wwn ++ "-lun-" ++ lun) = false).
    { intros g Hg. destruct (strings.Contains _ _) eqn:E; [|reflexivity].
      elim (Hpre g Hg). apply Contains_iff. exact E. }
    rewrite (findDisk_listed _ _ _ _ _ _ Hr).
    rewrite (findDisk_range_skip _ _ _ _ _ _ Hpre').
    split.
    + intros Hf. apply Contains_iff in Hf.
      cbn [findDisk_range]. cbv zeta. rewrite Hf.
      unfold bind at 1. cbn [calls call_EvalSymlinks app].
      eexists. reflexivity.
    + intros Hf.
      assert (E : strings.Contains (Name f) ("-fc-0x" ++ wwn ++ "-lun-" ++ lun) = false).
      { destruct (strings.Contains _ _) eqn:E; [|reflexivity].
        elim Hf. apply Contains_iff. exact E. }
      cbn [findDisk_range]. cbv zeta. rewrite E. reflexivity.
  - intros wwid Hr Hpre.
    rewrite (findDiskWWIDs_listed _ _ _ _ _ Hr).
    rewrite (findDiskWWIDs_range_skip _ _ _ _ _ _ Hpre).
    split.
    + intros Hf. cbn [findDiskWWIDs_range]. cbv zeta.
      destruct (String.eqb_spec (Name f) ("scsi-" ++ wwid)) as [_|n]; [|elim (n Hf)].
      unfold bind at 1. cbn [calls call_EvalSymlinks app].
      eexists. reflexivity.
    + intros Hf. apply String.eqb_neq in Hf.
      cbn [findDiskWWIDs_range]. cbv zeta. rewrite Hf. reflexivity.
Qed.


(** *** The bus rescan *)

Lemma scsiHostRescan_range_calls io scsiPath dirs w :
  calls (scsiHostRescan_range io scsiPath dirs w)
  = map (fun f => CallWriteFile (scsiPath ++ Name f ++ "/scan") "- - -" perm0666)
      dirs.
Proof.
  revert w. induction dirs as [|f dirs IH]; intros w; [reflexivity|].
  cbn [scsiHostRescan_range map]. run_simpl. rewrite IH. reflexivity.
Qed.


(** *** Detach *)

Lemma detachFCDisk_value io devicePath w :
  value (detachFCDisk devicePath io w)
  = if strings.HasPrefix devicePath "/dev/" then None
    else fmt.Errorf ("fc detach disk: invalid device name: " ++ devicePath).
Proof.
  unfold detachFCDisk.
  destruct (strings.HasPrefix devicePath "/dev/"); reflexivity.
Qed.

Lemma Detach_range_attempts io devices lastErr w :
  Detach_range io devices lastErr w
  = let a := attempt_all io devices w in
    mkRun (last_failure (value a) lastErr) (final a) (calls a).
Proof.
  revert lastErr w. induction devices as [|d devices IH]; intros lastErr w.
  - reflexivity.
  - cbn [Detach_range attempt_all]. unfold bind.
    destruct (detachFCDisk d io w) as [err w1 t1]. run_simpl.
    destruct err as [e|]; run_simpl; rewrite IH; cbn zeta; run_simpl;
      cbn [last_failure is_nil]; rewrite app_nil_r; reflexivity.
Qed.

Lemma attempt_all_devices io devices w :
  map fst (value (attempt_all io devices w)) = devices.
Proof.
  revert w. induction devices as [|d devices IH]; intros w; [reflexivity|].
  cbn [attempt_all]. run_simpl. cbn [map fst]. rewrite IH. reflexivity.
Qed.

Lemma last_failure_none outcomes lastErr :
  (forall x, In x outcomes -> snd x = None) ->
  last_failure outcomes lastErr = lastErr.
Proof.
  revert lastErr. induction outcomes as [|[d err] outcomes IH];
    intros lastErr H; [reflexivity|].
  cbn [last_failure]. rewrite (H (d, err) (or_introl eq_refl) : err = None).
  apply IH. intros x Hx. apply H. right. exact Hx.
Qed.

Lemma last_failure_last pre d e post lastErr :
  (forall x, In x post -> snd x = None) ->
  last_failure (pre ++ (d, Some e) :: post)%list lastErr
  = detach_failure d (Some e).
Proof.
  intros Hpost. revert lastErr.
  induction pre as [|[d' err'] pre IH]; intros lastErr.
  - cbn [app last_failure is_nil]. apply last_failure_none. exact Hpost.
  - cbn [app last_failure]. apply IH.
Qed.

Lemma Detach_resolved (io : option (ioHandler W)) devicePath w dstPath w1 :
  let h := match io with None => OSioHandler | Some h => h end in
  EvalSymlinks h devicePath w = ((dstPath, None), w1) ->
  Detach OSioHandler path_Join devicePath io w
  = let found :=
      (if strings.HasPrefix dstPath "/dev/dm-"
       then FindSlaveDevicesOnMultipath path_Join dstPath h
       else ret [dstPath]) w1 in
    let a := attempt_all h (value found) (final found) in
    mkRun (last_failure (value a) None) (final a)
      (CallEvalSymlinks devicePath :: calls found ++ calls a)%list.
Proof.
  intros h He. unfold Detach. fold h. unfold bind at 1.
  unfold call_EvalSymlinks. rewrite He. run_simpl.
  change ([] ++ [dstPath])%list with [dstPath].
  destruct ((if strings.HasPrefix dstPath "/dev/dm-"
             then FindSlaveDevicesOnMultipath path_Join dstPath h
             else ret [dstPath]) w1) as [devices w2 t2].
  run_simpl. rewrite Detach_range_attempts. cbn zeta. run_simpl.
  destruct (last_failure _ None); run_simpl; rewrite app_nil_r; reflexivity.
Qed.


Lemma attempt_all_outcomes io devices w :
  value (attempt_all io devices w)
  = map (fun d =>
           (d, if strings.HasPrefix d "/dev/" then None
               else fmt.Errorf ("fc detach disk: invalid device name: " ++ d)))
      devices.
Proof.
  revert w. induction devices as [|d devices IH]; intros w; [reflexivity|].
  cbn [attempt_all]. run_simpl. cbn [map].
  rewrite IH, detachFCDisk_value. reflexivity.
Qed.

Lemma attempt_all_calls io devices w :
  calls (attempt_all io devices w)
  = map (fun d =>
           CallWriteFile
             ("/sys/block/"
              ++ nth (length (strings.Split d "/") - 1) (strings.Split d "/") ""
              ++ "/device/delete")
             "1" perm0666)
      (filter (fun d => strings.HasPrefix d "/dev/") devices).
Proof.
  revert w. induction devices as [|d devices IH]; intros w; [reflexivity|].
  cbn [attempt_all filter]. unfold bind at 1. cbn [calls].
  unfold bind at 1. cbn [calls ret value final]. rewrite app_nil_r, IH.
  unfold detachFCDisk.
  destruct (strings.HasPrefix d "/dev/"); cbn [negb]; [|reflexivity].
  cbv zeta. unfold removeFromScsiSubsystem. run_simpl. reflexivity.
Qed.

(** C3, as amended. Once the symlink is resolved, [Detach] runs the
    removal on every device of its list (the slaves of the multipath
    device, or the single resolved path), in order and whatever earlier
    removals returned: every device under [/dev/] gets its write to the
    delete file.  A removal fails only when [detachFCDisk] returns an error,
    which it does exactly for a device path without the prefix "/dev/"; the
    result of the write is dropped and is no failure.  [Detach] returns the
    failure of the last device whose removal failed in that sense, in the
    form "fc: detachFCDisk failed. device: <device> err: <error>" and
    nothing of the failures before it, and no error when no removal
    failed. *)
Theorem Detach_attempts_all_returns_last
  (io : option (ioHandler W)) devicePath w dstPath w1 :
  let h := match io with None => OSioHandler | Some h => h end in
  EvalSymlinks h devicePath w = ((dstPath, None), w1) ->
  let found :=
    (if strings.HasPrefix dstPath "/dev/dm-"
     then FindSlaveDevicesOnMultipath path_Join dstPath h
     else ret [dstPath]) w1 in
  let attempts := attempt_all h (value found) (final found) in
  let result := Detach OSioHandler path_Join devicePath io w in
  map fst (value attempts) = value found
  /\ calls result
     = (CallEvalSymlinks devicePath :: calls found ++ calls attempts)%list
  /\ final result = final attempts
  /\ (forall pre d e post,
         value attempts = (pre ++ (d, Some e) :: post)%list ->
         (forall x, In x post -> snd x = None) ->
         value result
         = fmt.Errorf ("fc: detachFCDisk failed. device: " ++ d
                       ++ " err: " ++ e))
  /\ ((forall x, In x (value attempts) -> snd x = None) ->
      value result = None)
  /\ value attempts
     = map (fun d =>
              (d, if strings.HasPrefix d "/dev/" then None
                  else fmt.Errorf ("fc detach disk: invalid device name: " ++ d)))
         (value found)
  /\ calls attempts
     = map (fun d =>
              CallWriteFile
                ("/sys/block/"
                 ++ nth (length (strings.Split d "/") - 1) (strings.Split d "/") ""
                 ++ "/device/delete")
                "1" perm0666)
         (filter (fun d => strings.HasPrefix d "/dev/") (value found))
  /\ (forall pre d post,
         value found = (pre ++ d :: post)%list ->
         strings.HasPrefix d "/dev/" = false ->
         (forall x, In x post -> strings.HasPrefix x "/dev/" = true) ->
         value result
         = fmt.Errorf ("fc: detachFCDisk failed. device: " ++ d
                       ++ " err: fc detach disk: invalid device name: " ++ d)).
Proof.
  intros h He found attempts result.
  unfold result. rewrite (Detach_resolved io _ _ _ _ He).
  fold h. fold found. cbn zeta. fold attempts. cbn [value final calls].
  split; [apply attempt_all_devices|].
  split; [reflexivity|]. split; [reflexivity|]. split; [|split].
  - intros pre d e post Ha Hpost. rewrite Ha.
    rewrite (last_failure_last _ _ _ _ _ Hpost). reflexivity.
  - intros Hnone. apply last_failure_none. exact Hnone.
  - split; [apply attempt_all_outcomes|]. split; [apply attempt_all_calls|].
    intros pre d post Hf Hd Hpost. unfold attempts.
    rewrite attempt_all_outcomes, Hf, map_app. cbn [map]. rewrite Hd.
    rewrite last_failure_last; [reflexivity|].
    intros x Hx. apply in_map_iff in Hx. destruct Hx as (y & <- & Hy).
    cbn [snd]. rewrite (Hpost y Hy). reflexivity.
Qed.

(** C10. Once the symlink is resolved, [Detach] returns an error only
    when some device of its removal list does not begin with "/dev/".
    For a path with that prefix [detachFCDisk] performs the write to
    [/sys/block/<leaf>/device/delete] and returns nil whatever the write
    returned, so a failed write never reaches the caller. *)
Theorem Detach_fails_only_on_prefix
  (io : option (ioHandler W)) devicePath w dstPath w1 :
  let h := match io with None => OSioHandler | Some h => h end in
  EvalSymlinks h devicePath w = ((dstPath, None), w1) ->
  let found :=
    (if strings.HasPrefix dstPath "/dev/dm-"
     then FindSlaveDevicesOnMultipath path_Join dstPath h
     else ret [dstPath]) w1 in
  let result := Detach OSioHandler path_Join devicePath io w in
  (forall e, value result = Some e ->
             exists d, In d (value found)
                       /\ strings.HasPrefix d "/dev/" = false)
  /\ ((forall d, In d (value found) -> strings.HasPrefix d "/dev/" = true) ->
      value result = None)
  /\ (forall d w',
         strings.HasPrefix d "/dev/" = true ->
         let arr := strings.Split d "/" in
         let fileName :=
           "/sys/block/" ++ nth (length arr - 1) arr "" ++ "/device/delete" in
         detachFCDisk d h w'
         = mkRun None (snd (WriteFile h fileName "1" perm0666 w'))
             [CallWriteFile fileName "1" perm0666]).
Proof.
  intros h He found result.
  assert (Hall : (forall d, In d (value found) ->
                            strings.HasPrefix d "/dev/" = true) ->
                 value result = None).
  { intros Hp. unfold result. rewrite (Detach_resolved io _ _ _ _ He).
    fold h. fold found. cbn zeta. cbn [value].
    apply last_failure_none. rewrite attempt_all_outcomes.
    intros x Hx. apply in_map_iff in Hx. destruct Hx as (d & <- & Hd).
    cbn [snd]. rewrite (Hp d Hd). reflexivity. }
  split; [|split; [exact Hall|]].
  - intros e Hres.
    destruct (existsb (fun d => negb (strings.HasPrefix d "/dev/"))
                (value found)) eqn:Ex.
    + apply existsb_exists in Ex. destruct Ex as (d & Hd & Hn).
      exists d. split; [exact Hd|]. apply negb_true_iff. exact Hn.
    + rewrite Hall in Hres; [discriminate|].
      intros d Hd. destruct (strings.HasPrefix d "/dev/") eqn:E; [reflexivity|].
      assert (Ht : existsb (fun d => negb (strings.HasPrefix d "/dev/"))
                     (value found) = true).
      { apply existsb_exists. exists d. rewrite E. split; [exact Hd|reflexivity]. }
      rewrite Ht in Ex. discriminate.
  - intros d w' Hp arr fileName. unfold detachFCDisk. rewrite Hp.
    cbn [negb]. unfold removeFromScsiSubsystem. run_simpl. reflexivity.
Qed.


(** *** The search of Attach *)

Lemma searchDisk_for_enough fuel (c : Connector W) io diskIds w :
  searchDisk_for (S (S fuel)) c io diskIds false "" "" w
  = let r := two_phase_search c io diskIds w in
    mkRun (Some (value r)) (final r) (calls r).
Proof.
  cbn [searchDisk_for]. unfold two_phase_search, bind.
  destruct (searchDisk_range c io diskIds "" "" w) as [[disk dm] w1 t1].
  run_simpl. destruct (String.eqb dm ""); cbn [orb negb]; run_simpl.
  - destruct (searchDisk_range c io diskIds disk dm _) as [[disk2 dm2] w3 t3].
    run_simpl. rewrite !app_nil_r. reflexivity.
  - reflexivity.
Qed.

Lemma searchDisk_enough fuel (c : Connector W) io w :
  let diskIds :=
    if negb (Nat.eqb (length (TargetWWNs c)) 0) then TargetWWNs c
    else WWIDs c in
  let r := two_phase_search c io diskIds w in
  searchDisk (S (S fuel)) c io w
  = mkRun
      (Some (if String.eqb (fst (value r)) "" && String.eqb (snd (value r)) ""
             then ("", fmt.Errorf "no fc disk found")
             else if negb (String.eqb (snd (value r)) "")
                  then (snd (value r), None)
                  else (fst (value r), None)))
      (final r) (calls r).
Proof.
  intros diskIds r. unfold searchDisk. fold diskIds. unfold bind.
  rewrite searchDisk_for_enough. fold r. cbn zeta. run_simpl.
  destruct (value r) as [disk dm]. cbn [fst snd].
  destruct (String.eqb disk "" && String.eqb dm "");
    [|destruct (negb (String.eqb dm ""))];
    run_simpl; rewrite app_nil_r; reflexivity.
Qed.

Lemma rescans_app t1 t2 : rescans (t1 ++ t2) = rescans t1 + rescans t2.
Proof. unfold rescans. rewrite filter_app, length_app. reflexivity. Qed.

Lemma quiet_ret A (a : A) : quiet (W:=W) (ret a).
Proof. intros w. reflexivity. Qed.

Lemma quiet_bind A B (m : M W A) (k : A -> M W B) :
  quiet m -> (forall a, quiet (k a)) -> quiet (bind m k).
Proof.
  intros Hm Hk w. unfold bind. cbn [calls].
  rewrite rescans_app, Hm, Hk. reflexivity.
Qed.

Lemma quiet_findDeviceForPath path io : quiet (findDeviceForPath path io).
Proof.
  apply quiet_bind; [intros w; reflexivity|].
  intros [devicePath err]. destruct (negb (is_nil err)); [apply quiet_ret|].
  cbv zeta. destruct (_ && _); apply quiet_ret.
Qed.

Lemma quiet_FindMultipathDeviceForDevice_range io disk dirs :
  quiet (FindMultipathDeviceForDevice_range io "/sys/block/" disk dirs).
Proof.
  induction dirs as [|f dirs IH]; [apply quiet_ret|].
  cbn [FindMultipathDeviceForDevice_range]. cbv zeta.
  destruct (strings.HasPrefix (Name f) "dm-"); [|exact IH].
  apply quiet_bind; [intros w; reflexivity|].
  intros [info err1]. destruct (is_nil err1); [apply quiet_ret|exact IH].
Qed.

Lemma quiet_FindMultipathDeviceForDevice device io :
  quiet (FindMultipathDeviceForDevice device io).
Proof.
  apply quiet_bind; [apply quiet_findDeviceForPath|].
  intros [disk err]. destruct (negb (is_nil err)); [apply quiet_ret|].
  apply quiet_bind; [intros w; reflexivity|].
  intros [dirs err2]. destruct (is_nil err2);
    [apply quiet_FindMultipathDeviceForDevice_range|apply quiet_ret].
Qed.

Lemma quiet_findDisk wwn lun io : quiet (findDisk wwn lun io).
Proof.
  apply quiet_bind; [intros w; reflexivity|].
  intros [dirs err]. destruct (is_nil err); [|apply quiet_ret].
  induction dirs as [|f dirs IH]; [apply quiet_ret|].
  cbn [findDisk_range]. cbv zeta.
  destruct (strings.Contains (Name f) _); [|exact IH].
  apply quiet_bind; [intros w; reflexivity|].
  intros [disk err1]. destruct (is_nil err1); [|exact IH].
  apply quiet_bind; [apply quiet_FindMultipathDeviceForDevice|].
  intros [dm err2]. destruct (is_nil err2); [apply quiet_ret|exact IH].
Qed.

Lemma quiet_findDiskWWIDs wwid io : quiet (findDiskWWIDs wwid io).
Proof.
  apply quiet_bind; [intros w; reflexivity|].
  intros [dirs err]. destruct (is_nil err); [|apply quiet_ret].
  induction dirs as [|f dirs IH]; [apply quiet_ret|].
  cbn [findDiskWWIDs_range]. cbv zeta.
  destruct (String.eqb (Name f) _); [|exact IH].
  apply quiet_bind; [intros w; reflexivity|].
  intros [disk err1]. destruct (negb (is_nil err1)); [apply quiet_ret|].
  apply quiet_bind; [apply quiet_FindMultipathDeviceForDevice|].
  intros [dm err2]. destruct (negb (is_nil err2)); [apply quiet_ret|exact IH].
Qed.

Lemma quiet_searchDisk_range (c : Connector W) io diskIds disk dm :
  quiet (searchDisk_range c io diskIds disk dm).
Proof.
  revert disk dm. induction diskIds as [|diskID diskIds IH]; intros disk dm;
    [apply quiet_ret|].
  cbn [searchDisk_range]. apply quiet_bind.
  - destruct (negb _); [apply quiet_findDisk|apply quiet_findDiskWWIDs].
  - intros [disk' dm']. destruct (negb (String.eqb dm' ""));
      [apply quiet_ret|apply IH].
Qed.

Lemma rescans_scsiHostRescan io w : rescans (calls (scsiHostRescan io w)) = 1.
Proof.
  unfold scsiHostRescan. run_simpl.
  destruct (ReadDir io "/sys/class/scsi_host/" w) as [[dirs err] w1].
  run_simpl. destruct err as [e|]; run_simpl; [reflexivity|].
  rewrite scsiHostRescan_range_calls.
  change (S (rescans (map (fun f => CallWriteFile
              ("/sys/class/scsi_host/" ++ Name f ++ "/scan") "- - -" perm0666)
              dirs)) = 1).
  induction dirs as [|f dirs IH]; [reflexivity|exact IH].
Qed.


(** C2. The loop of [searchDisk] ends for every input: any bound of at
    least two iterations gives a result.  The search is one pass over the
    identifiers and, when that pass ends without a multipath device, one
    bus rescan followed by a second, last pass; so the run rescans once
    when the first pass finds no multipath device and not at all when it
    finds one. *)
Theorem searchDisk_rescans_at_most_once (c : Connector W) io fuel w :
  let diskIds :=
    if negb (Nat.eqb (length (TargetWWNs c)) 0) then TargetWWNs c
    else WWIDs c in
  let first := searchDisk_range c io diskIds "" "" w in
  let run := searchDisk (S (S fuel)) c io w in
  (exists r, value run = Some r)
  /\ searchDisk_for (S (S fuel)) c io diskIds false "" "" w
     = (let r := two_phase_search c io diskIds w in
        mkRun (Some (value r)) (final r) (calls r))
  /\ calls run
     = (calls first
        ++ (if String.eqb (snd (value first)) "" then
              calls (scsiHostRescan io (final first))
              ++ calls (searchDisk_range c io diskIds
                          (fst (value first)) (snd (value first))
                          (final (scsiHostRescan io (final first))))
            else []))%list
  /\ rescans (calls run)
     = (if String.eqb (snd (value first)) "" then 1 else 0).
Proof.
  intros diskIds first run.
  assert (Hc : calls run
     = (calls first
        ++ (if String.eqb (snd (value first)) "" then
              calls (scsiHostRescan io (final first))
              ++ calls (searchDisk_range c io diskIds
                          (fst (value first)) (snd (value first))
                          (final (scsiHostRescan io (final first))))
            else []))%list).
  { unfold run. rewrite searchDisk_enough. fold diskIds. cbv zeta.
    cbn [calls]. unfold two_phase_search, bind. fold first.
    destruct (value first) as [disk dm]. cbn [fst snd].
    destruct (String.eqb dm ""); reflexivity. }
  split; [|split; [apply searchDisk_for_enough|split; [exact Hc|]]].
  - unfold run. rewrite searchDisk_enough. cbn [value].
    eexists. reflexivity.
  - rewrite Hc, rescans_app. unfold first.
    rewrite quiet_searchDisk_range.
    destruct (String.eqb _ ""); [|reflexivity].
    rewrite rescans_app, rescans_scsiHostRescan, quiet_searchDisk_range.
    reflexivity.
Qed.

Lemma searchDisk_range_ext (c c' : Connector W) io diskIds disk dm w :
  TargetWWNs c = TargetWWNs c' -> Lun c = Lun c' ->
  searchDisk_range c io diskIds disk dm w
  = searchDisk_range c' io diskIds disk dm w.
Proof.
  intros Ht Hl. revert disk dm w.
  induction diskIds as [|diskID diskIds IH]; intros disk dm w; [reflexivity|].
  cbn [searchDisk_range]. rewrite Ht, Hl. unfold bind.
  match goal with
  | |- context [(if ?b then ?x else ?y) w] =>
      destruct ((if b then x else y) w) as [[disk' dm'] w1 t1]
  end.
  run_simpl. destruct (negb (String.eqb dm' "")); [reflexivity|].
  rewrite IH. reflexivity.
Qed.

Lemma searchDisk_for_ext (c c' : Connector W) io diskIds fuel rescaned disk dm w :
  TargetWWNs c = TargetWWNs c' -> Lun c = Lun c' ->
  searchDisk_for fuel c io diskIds rescaned disk dm w
  = searchDisk_for fuel c' io diskIds rescaned disk dm w.
Proof.
  intros Ht Hl. revert rescaned disk dm w.
  induction fuel as [|fuel IH]; intros rescaned disk dm w; [reflexivity|].
  cbn [searchDisk_for]. unfold bind.
  rewrite (searchDisk_range_ext c c' _ _ _ _ _ Ht Hl).
  destruct (searchDisk_range c' io diskIds disk dm w) as [[disk' dm'] w1 t1].
  run_simpl. destruct (rescaned || negb (String.eqb dm' "")); [reflexivity|].
  rewrite IH. reflexivity.
Qed.

Lemma searchDisk_returns (c : Connector W) io fuel w :
  value (searchDisk (S (S fuel)) c io w) <> None.
Proof. rewrite searchDisk_enough. discriminate. Qed.

(** C8. On the same handler and world, two connectors that differ only
    in [VolumeName] give the same run of [searchDisk] (result, world left
    and handler calls); so do two connectors with the same non-empty
    [TargetWWNs] and the same [Lun], whatever their [WWIDs] are.  The
    runs in question return a result. *)
Theorem searchDisk_noninterference (c c' : Connector W) io fuel w :
  (TargetWWNs c = TargetWWNs c' -> Lun c = Lun c' -> WWIDs c = WWIDs c' ->
   searchDisk (S (S fuel)) c io w = searchDisk (S (S fuel)) c' io w
   /\ value (searchDisk (S (S fuel)) c io w) <> None)
  /\
  (TargetWWNs c = TargetWWNs c' -> TargetWWNs c <> [] -> Lun c = Lun c' ->
   searchDisk (S (S fuel)) c io w = searchDisk (S (S fuel)) c' io w
   /\ value (searchDisk (S (S fuel)) c io w) <> None).
Proof.
  split.
  - intros Ht Hl Hw. split; [|apply searchDisk_returns].
    unfold searchDisk. rewrite <- Ht, <- Hw. unfold bind.
    rewrite (searchDisk_for_ext c c' _ _ _ _ _ _ _ Ht Hl). reflexivity.
  - intros Ht Hne Hl. split; [|apply searchDisk_returns].
    unfold searchDisk. rewrite <- Ht.
    destruct (TargetWWNs c) as [|wwn wwns] eqn:E; [elim Hne; reflexivity|].
    cbn [length Nat.eqb negb]. unfold bind.
    rewrite (searchDisk_for_ext c c' _ _ _ _ _ _ _ (eq_trans E Ht) Hl).
    reflexivity.
Qed.


(** *** Splitting paths *)

Lemma Split_free s sep : free_of sep s = true -> strings.Split s sep = [s].
Proof.
  induction s as [|c s IH]; intros H; [reflexivity|].
  cbn [free_of] in H. apply andb_true_iff in H. destruct H as [Hc Hs].
  cbn [strings.Split]. apply negb_true_iff in Hc. rewrite Hc, (IH Hs).
  reflexivity.
Qed.

Lemma Split_pieces_free s sep piece :
  In piece (strings.Split s sep) -> free_of sep piece = true.
Proof.
  revert piece. induction s as [|c s IH]; intros piece H.
  - destruct H as [<-|[]]. reflexivity.
  - cbn [strings.Split] in H. destruct (Ascii.eqb c sep) eqn:E.
    + destruct H as [<-|H]; [reflexivity|apply IH; exact H].
    + destruct (strings.Split s sep) as [|p ps] eqn:Es.
      * destruct H as [<-|[]]. cbn [free_of]. rewrite E. reflexivity.
      * destruct H as [<-|H].
        -- cbn [free_of]. rewrite E. cbn [negb andb].
           apply IH. left. reflexivity.
        -- apply IH. right. exact H.
Qed.

Lemma Split_app_sep a b sep :
  strings.Split (a ++ String sep b) sep
  = (strings.Split a sep ++ strings.Split b sep)%list.
Proof.
  induction a as [|c a IH].
  - cbn [append strings.Split]. rewrite Ascii.eqb_refl. reflexivity.
  - cbn [append strings.Split]. rewrite IH.
    destruct (Ascii.eqb c sep); [reflexivity|].
    destruct (strings.Split a sep) as [|p ps] eqn:Ea;
      [elim (Split_nonempty _ _ Ea)|reflexivity].
Qed.

Lemma nth_last_app (l : list string) (x d : string) :
  nth (length (l ++ [x]) - 1) (l ++ [x])%list d = x.
Proof.
  rewrite length_app. cbn [length]. rewrite Nat.add_sub.
  rewrite app_nth2, Nat.sub_diag; [reflexivity|apply Nat.le_refl].
Qed.

(** The last piece of a path that ends in a slash-free leaf is the leaf. *)
Lemma Split_leaf dir leaf :
  free_of "/" leaf = true ->
  let arr := strings.Split (dir ++ String "/" leaf) "/" in
  nth (length arr - 1) arr "" = leaf.
Proof.
  intros Hf arr. unfold arr. rewrite Split_app_sep, (Split_free _ _ Hf).
  apply nth_last_app.
Qed.

Lemma Split_dev x :
  free_of "/" x = true -> strings.Split ("/dev/" ++ x) "/" = [""; "dev"; x].
Proof.
  intros Hf. change ("/dev/" ++ x) with ("/dev" ++ String "/" x).
  rewrite Split_app_sep, (Split_free _ _ Hf). reflexivity.
Qed.

(** *** Further properties of path parsing *)

(** X1. A device name returned by [findDeviceForPath] without error never
    contains a slash. *)
Theorem findDeviceForPath_name_without_slash io path w name :
  value (findDeviceForPath path io w) = (name, None) ->
  free_of "/" name = true.
Proof.
  unfold findDeviceForPath, bind. run_simpl.
  destruct (EvalSymlinks io path w) as [[devicePath err] w1]. run_simpl.
  destruct err as [e|]; run_simpl; [discriminate|]. cbv zeta.
  destruct (Nat.eqb (length (strings.Split devicePath "/")) 3) eqn:El;
    cbn [andb]; [|discriminate].
  destruct (strings.HasPrefix _ "dev"); run_simpl; [|discriminate].
  intros E. injection E as <-.
  apply (Split_pieces_free devicePath "/"). apply nth_In.
  apply Nat.eqb_eq in El. rewrite El. repeat constructor.
Qed.

(** X2. When the link resolves to [/dev/<x>] with [x] free of slashes,
    [findDeviceForPath] returns [x]: [sdX] for [/dev/sdX]. *)
Theorem findDeviceForPath_dev_leaf io path w x w1 :
  EvalSymlinks io path w = (("/dev/" ++ x, None), w1) ->
  free_of "/" x = true ->
  findDeviceForPath path io w = mkRun (x, None) w1 [CallEvalSymlinks path].
Proof.
  intros He Hf. rewrite (findDeviceForPath_resolved _ _ _ _ _ He).
  rewrite (Split_dev _ Hf). reflexivity.
Qed.

(** X3. When the link cannot be resolved, [findDeviceForPath] returns the
    empty name with the error of the resolution, after that single call;
    and whatever the outcome, it returns an empty name with every error. *)
Theorem findDeviceForPath_error_empty io path w :
  (forall devicePath e w1,
      EvalSymlinks io path w = ((devicePath, Some e), w1) ->
      findDeviceForPath path io w = mkRun ("", Some e) w1 [CallEvalSymlinks path])
  /\ (forall name e,
         value (findDeviceForPath path io w) = (name, Some e) -> name = "").
Proof.
  split.
  - intros devicePath e w1 He. unfold findDeviceForPath, bind. run_simpl.
    rewrite He. reflexivity.
  - intros name e. unfold findDeviceForPath, bind. run_simpl.
    destruct (EvalSymlinks io path w) as [[devicePath err] w1]. run_simpl.
    destruct err as [e'|]; run_simpl.
    + intros E. injection E as <- _. reflexivity.
    + cbv zeta. destruct (_ && _); run_simpl; intros E;
        [discriminate|injection E as <- _; reflexivity].
Qed.


(** *** Further properties of the multipath parent *)

Lemma FindMultipathDeviceForDevice_range_shape io disk dirs w p e :
  value (FindMultipathDeviceForDevice_range io "/sys/block/" disk dirs w) = (p, e) ->
  e = None
  /\ (p = ""
      \/ exists f, In f dirs /\ strings.HasPrefix (Name f) "dm-" = true
                   /\ p = "/dev/" ++ Name f).
Proof.
  revert w. induction dirs as [|f dirs IH]; intros w.
  - cbn. intros E. injection E as <- <-. split; [reflexivity|left; reflexivity].
  - cbn [FindMultipathDeviceForDevice_range]. cbv zeta.
    destruct (strings.HasPrefix (Name f) "dm-") eqn:Hf.
    + unfold bind. run_simpl.
      destruct (Lstat io _ w) as [[info err1] w1]. run_simpl.
      destruct err1 as [e1|]; run_simpl.
      * intros E. destruct (IH _ E) as [He [Hp|(g & Hg & Hd & Hp)]].
        -- split; [exact He|left; exact Hp].
        -- split; [exact He|right; exists g; split; [right; exact Hg|split; assumption]].
      * intros E. injection E as <- <-. split; [reflexivity|].
        right. exists f. split; [left; reflexivity|split; [exact Hf|reflexivity]].
    + intros E. destruct (IH _ E) as [He [Hp|(g & Hg & Hd & Hp)]].
      * split; [exact He|left; exact Hp].
      * split; [exact He|right; exists g; split; [right; exact Hg|split; assumption]].
Qed.

Lemma FindMultipathDeviceForDevice_shape io device w p e :
  value (FindMultipathDeviceForDevice device io w) = (p, e) ->
  (e <> None -> p = "")
  /\ (e = None ->
      p = "" \/ exists name, strings.HasPrefix name "dm-" = true
                             /\ p = "/dev/" ++ name).
Proof.
  unfold FindMultipathDeviceForDevice, bind. run_simpl.
  destruct (findDeviceForPath device io w) as [[disk err] w1 t1]. run_simpl.
  destruct err as [e0|]; run_simpl.
  - intros E. injection E as <- <-. split; [reflexivity|discriminate].
  - destruct (ReadDir io "/sys/block/" w1) as [[dirs err2] w2]. run_simpl.
    destruct err2 as [e2|]; run_simpl.
    + intros E. injection E as <- <-. split; [reflexivity|discriminate].
    + intros E.
      destruct (FindMultipathDeviceForDevice_range_shape _ _ _ _ _ _ E)
        as [-> [Hp|(g & _ & Hd & Hp)]].
      * split; [intros H; elim H; reflexivity|intros _; left; exact Hp].
      * split; [intros H; elim H; reflexivity|].
        intros _. right. exists (Name g). split; assumption.
Qed.

(** X4. [FindMultipathDeviceForDevice] returns the empty string with
    every error, and without error either the empty string or a path with
    prefix "/dev/dm-": what it reports as a parent is what [Detach] takes
    for a multipath device. *)
Theorem FindMultipathDeviceForDevice_result_shape io device w p e :
  value (FindMultipathDeviceForDevice device io w) = (p, e) ->
  (e <> None -> p = "")
  /\ (e = None -> p = "" \/ strings.HasPrefix p "/dev/dm-" = true).
Proof.
  intros E. destruct (FindMultipathDeviceForDevice_shape _ _ _ _ _ E) as [H1 H2].
  split; [exact H1|]. intros He.
  destruct (H2 He) as [Hp|(name & Hd & ->)]; [left; exact Hp|right].
  apply HasPrefix_iff in Hd. destruct Hd as [r ->].
  apply HasPrefix_iff. exists r. reflexivity.
Qed.

(** *** Calls a run may make *)

Lemma all_calls_ret A (P : Call -> Prop) (a : A) : all_calls (W:=W) P (ret a).
Proof. intros w. constructor. Qed.

Lemma all_calls_bind A B (P : Call -> Prop) (m : M W A) (k : A -> M W B) :
  all_calls P m -> (forall a, all_calls P (k a)) -> all_calls P (bind m k).
Proof.
  intros Hm Hk w. unfold bind. cbn [calls].
  apply Forall_app. split; [apply Hm|apply Hk].
Qed.

Lemma all_calls_weaken A (P Q : Call -> Prop) (m : M W A) :
  (forall c, P c -> Q c) -> all_calls P m -> all_calls Q m.
Proof. intros H Hm w. eapply Forall_impl; [exact H|apply Hm]. Qed.

Lemma all_calls_one A (P : Call -> Prop) (m : M W A) c :
  (forall w, calls (m w) = [c]) -> P c -> all_calls P m.
Proof. intros H Hc w. rewrite H. constructor; [exact Hc|constructor]. Qed.

Lemma probe_findDeviceForPath path io :
  all_calls probe_call (findDeviceForPath path io).
Proof.
  apply all_calls_bind.
  - apply (all_calls_one _ _ _ (CallEvalSymlinks path)); [reflexivity|].
    split; exact I.
  - intros [devicePath err]. destruct (negb (is_nil err)); [apply all_calls_ret|].
    cbv zeta. destruct (_ && _); apply all_calls_ret.
Qed.

Lemma probe_FindMultipathDeviceForDevice_range io disk dirs :
  all_calls probe_call
    (FindMultipathDeviceForDevice_range io "/sys/block/" disk dirs).
Proof.
  induction dirs as [|f dirs IH]; [apply all_calls_ret|].
  cbn [FindMultipathDeviceForDevice_range]. cbv zeta.
  destruct (strings.HasPrefix (Name f) "dm-") eqn:Hf; [|exact IH].
  apply all_calls_bind.
  - apply (all_calls_one _ _ _
             (CallLstat ("/sys/block/" ++ Name f ++ "/slaves/" ++ disk)));
      [reflexivity|].
    split; [exact I|]. exists (Name f), disk. split; [exact Hf|reflexivity].
  - intros [info err1]. destruct (is_nil err1); [apply all_calls_ret|exact IH].
Qed.

Lemma probe_FindMultipathDeviceForDevice device io :
  all_calls probe_call (FindMultipathDeviceForDevice device io).
Proof.
  apply all_calls_bind; [apply probe_findDeviceForPath|].
  intros [disk err]. destruct (negb (is_nil err)); [apply all_calls_ret|].
  apply all_calls_bind.
  - apply (all_calls_one _ _ _ (CallReadDir "/sys/block/")); [reflexivity|].
    split; exact I.
  - intros [dirs err2]. destruct (is_nil err2);
      [apply probe_FindMultipathDeviceForDevice_range|apply all_calls_ret].
Qed.

Lemma probe_findDisk wwn lun io : all_calls probe_call (findDisk wwn lun io).
Proof.
  apply all_calls_bind.
  - apply (all_calls_one _ _ _ (CallReadDir "/dev/disk/by-path/"));
      [reflexivity|split; exact I].
  - intros [dirs err]. destruct (is_nil err); [|apply all_calls_ret].
    induction dirs as [|f dirs IH]; [apply all_calls_ret|].
    cbn [findDisk_range]. cbv zeta.
    destruct (strings.Contains (Name f) _); [|exact IH].
    apply all_calls_bind.
    + apply (all_calls_one _ _ _
               (CallEvalSymlinks ("/dev/disk/by-path/" ++ Name f)));
        [reflexivity|split; exact I].
    + intros [disk err1]. destruct (is_nil err1); [|exact IH].
      apply all_calls_bind; [apply probe_FindMultipathDeviceForDevice|].
      intros [dm err2]. destruct (is_nil err2); [apply all_calls_ret|exact IH].
Qed.

Lemma probe_findDiskWWIDs wwid io : all_calls probe_call (findDiskWWIDs wwid io).
Proof.
  apply all_calls_bind.
  - apply (all_calls_one _ _ _ (CallReadDir "/dev/disk/by-id/"));
      [reflexivity|split; exact I].
  - intros [dirs err]. destruct (is_nil err); [|apply all_calls_ret].
    induction dirs as [|f dirs IH]; [apply all_calls_ret|].
    cbn [findDiskWWIDs_range]. cbv zeta.
    destruct (String.eqb (Name f) _); [|exact IH].
    apply all_calls_bind.
    + apply (all_calls_one _ _ _
               (CallEvalSymlinks ("/dev/disk/by-id/" ++ Name f)));
        [reflexivity|split; exact I].
    + intros [disk err1]. destruct (negb (is_nil err1)); [apply all_calls_ret|].
      apply all_calls_bind; [apply probe_FindMultipathDeviceForDevice|].
      intros [dm err2]. destruct (negb (is_nil err2));
        [apply all_calls_ret|exact IH].
Qed.

(** X5. The two lookups and the parent search only read: from any world,
    [findDisk], [findDiskWWIDs] and [FindMultipathDeviceForDevice] write no
    file, and the only paths they stat are slave links
    [/sys/block/<dm-name>/slaves/<disk>] of entries named [dm-...]. *)
Theorem lookups_only_read io :
  (forall wwn lun, all_calls probe_call (findDisk wwn lun io))
  /\ (forall wwid, all_calls probe_call (findDiskWWIDs wwid io))
  /\ (forall device, all_calls probe_call (FindMultipathDeviceForDevice device io)).
Proof.
  split; [intros; apply probe_findDisk|].
  split; [intros; apply probe_findDiskWWIDs|].
  intros; apply probe_FindMultipathDeviceForDevice.
Qed.


(** *** Further properties of the search *)

Lemma search_scsiHostRescan io : all_calls search_call (scsiHostRescan io).
Proof.
  intros w. unfold scsiHostRescan. run_simpl.
  destruct (ReadDir io "/sys/class/scsi_host/" w) as [[dirs err] w1].
  run_simpl. constructor; [exact I|].
  destruct err as [e|]; run_simpl; [constructor|].
  rewrite scsiHostRescan_range_calls. apply Forall_forall.
  intros c Hc. apply in_map_iff in Hc. destruct Hc as (f & <- & _).
  exists (Name f). reflexivity.
Qed.

Lemma probe_is_search c : probe_call c -> search_call c.
Proof. destruct c; intros [Hr Hp]; [exact Hp|exact Hp|exact Hp|elim Hr]. Qed.

Lemma search_searchDisk_range (c : Connector W) io diskIds disk dm :
  all_calls search_call (searchDisk_range c io diskIds disk dm).
Proof.
  revert disk dm. induction diskIds as [|diskID diskIds IH]; intros disk dm;
    [apply all_calls_ret|].
  cbn [searchDisk_range]. apply all_calls_bind.
  - apply (all_calls_weaken _ probe_call); [exact probe_is_search|].
    destruct (negb _); [apply probe_findDisk|apply probe_findDiskWWIDs].
  - intros [disk' dm']. destruct (negb (String.eqb dm' ""));
      [apply all_calls_ret|apply IH].
Qed.

Lemma search_searchDisk_for fuel (c : Connector W) io diskIds rescaned disk dm :
  all_calls search_call (searchDisk_for fuel c io diskIds rescaned disk dm).
Proof.
  revert rescaned disk dm. induction fuel as [|fuel IH]; intros rescaned disk dm;
    [apply all_calls_ret|].
  cbn [searchDisk_for]. apply all_calls_bind; [apply search_searchDisk_range|].
  intros [disk' dm']. destruct (rescaned || negb (String.eqb dm' ""));
    [apply all_calls_ret|].
  apply all_calls_bind; [apply search_scsiHostRescan|]. intros _. apply IH.
Qed.

Lemma search_searchDisk fuel (c : Connector W) io :
  all_calls search_call (searchDisk fuel c io).
Proof.
  apply all_calls_bind; [apply search_searchDisk_for|].
  intros [[disk dm]|]; [|apply all_calls_ret].
  destruct (String.eqb disk "" && String.eqb dm ""); [apply all_calls_ret|].
  destruct (negb (String.eqb dm "")); apply all_calls_ret.
Qed.

(** X6. [Attach] never removes anything: from any world, the only writes
    it makes are of "- - -" to [/sys/class/scsi_host/<host>/scan], and the
    only paths it stats are slave links of [dm-] nodes. *)
Theorem Attach_only_triggers_rescans
  (c : Connector W) (io : option (ioHandler W)) fuel :
  all_calls search_call (Attach OSioHandler fuel c io).
Proof.
  apply all_calls_bind; [apply search_searchDisk|].
  intros [[devicePath err]|]; [|apply all_calls_ret].
  destruct (negb (is_nil err)); apply all_calls_ret.
Qed.

Lemma searchDisk_value_shape fuel (c : Connector W) io w p e :
  value (searchDisk fuel c io w) = Some (p, e) ->
  (e = None /\ p <> "") \/ (p = "" /\ e = fmt.Errorf "no fc disk found").
Proof.
  unfold searchDisk, bind. run_simpl.
  destruct (value (searchDisk_for _ _ _ _ _ _ _ _)) as [[disk dm]|];
    run_simpl; [|discriminate].
  destruct (String.eqb_spec disk ""), (String.eqb_spec dm "");
    cbn [andb negb]; run_simpl; intros E; injection E as <- <-.
  - right. split; reflexivity.
  - left. split; [reflexivity|assumption].
  - left. split; [reflexivity|assumption].
  - left. split; [reflexivity|assumption].
Qed.

(** X7. The only error [searchDisk] returns is "no fc disk found", and it
    comes with the empty path; a result without error is never the empty
    path.  Errors of the handler are never passed on. *)
Theorem searchDisk_result_shape fuel (c : Connector W) io w :
  exists p e,
    value (searchDisk (S (S fuel)) c io w) = Some (p, e)
    /\ ((e = None /\ p <> "")
        \/ (p = "" /\ e = fmt.Errorf "no fc disk found")).
Proof.
  destruct (value (searchDisk (S (S fuel)) c io w)) as [[p e]|] eqn:E.
  - exists p, e. split; [reflexivity|].
    apply (searchDisk_value_shape _ _ _ _ _ _ E).
  - elim (searchDisk_returns c io fuel w E).
Qed.

(** X8. [Attach] is [searchDisk] on the handler given, or on the OS
    handler when none is given: same result, same world left, same handler
    calls; with a bound of at least two iterations it returns a result. *)
Theorem Attach_is_searchDisk (c : Connector W) (io : option (ioHandler W)) fuel w :
  let h := match io with None => OSioHandler | Some h => h end in
  Attach OSioHandler fuel c io w = searchDisk fuel c h w
  /\ value (Attach OSioHandler (S (S fuel)) c io w) <> None.
Proof.
  intros h.
  assert (E : forall n, Attach OSioHandler n c io w = searchDisk n c h w).
  { intros n. unfold Attach. fold h. unfold bind.
    pose proof (searchDisk_value_shape n c h w) as Hs.
    destruct (searchDisk n c h w) as [[[p e]|] w1 t1]; run_simpl.
    - destruct (Hs p e eq_refl) as [[-> _]|[-> ->]]; run_simpl;
        rewrite app_nil_r; reflexivity.
    - rewrite app_nil_r. reflexivity. }
  split; [apply E|]. rewrite E. apply searchDisk_returns.
Qed.

(** X9. With no identifier at all (no target WWN and no WWID),
    [searchDisk] looks nothing up: it rescans the bus once and returns "no
    fc disk found". *)
Theorem searchDisk_without_identifiers (c : Connector W) io fuel w :
  TargetWWNs c = [] -> WWIDs c = [] ->
  searchDisk (S (S fuel)) c io w
  = mkRun (Some ("", fmt.Errorf "no fc disk found"))
      (final (scsiHostRescan io w)) (calls (scsiHostRescan io w)).
Proof.
  intros Ht Hw. rewrite searchDisk_enough. rewrite Ht, Hw. cbv zeta.
  cbn [length Nat.eqb negb]. unfold two_phase_search, bind.
  cbn [searchDisk_range]. run_simpl. cbn [String.eqb andb].
  rewrite app_nil_r. reflexivity.
Qed.


Lemma FindMultipathDeviceForDevice_error_empty io device w :
  snd (value (FindMultipathDeviceForDevice device io w)) <> None ->
  fst (value (FindMultipathDeviceForDevice device io w)) = "".
Proof.
  destruct (value (FindMultipathDeviceForDevice device io w)) as [p e] eqn:E.
  cbn [fst snd]. apply (FindMultipathDeviceForDevice_shape _ _ _ _ _ E).
Qed.

Lemma findDiskWWIDs_range_dm_empty io FcPath DevID dirs w :
  snd (value (findDiskWWIDs_range io FcPath DevID dirs w)) = "".
Proof.
  revert w. induction dirs as [|f dirs IH]; intros w; [reflexivity|].
  cbn [findDiskWWIDs_range]. cbv zeta.
  destruct (String.eqb (Name f) FcPath); [|apply IH].
  unfold bind. run_simpl.
  destruct (EvalSymlinks io _ w) as [[disk err] w1]. run_simpl.
  destruct err as [e|]; run_simpl; [reflexivity|].
  pose proof (FindMultipathDeviceForDevice_error_empty io disk w1) as Hp.
  destruct (FindMultipathDeviceForDevice disk io w1) as [[dm err1] w2 t2].
  cbn [value fst snd] in Hp. run_simpl.
  destruct err1 as [e1|]; run_simpl; [|apply IH].
  apply Hp. discriminate.
Qed.

Lemma findDiskWWIDs_dm_empty io wwid w :
  snd (value (findDiskWWIDs wwid io w)) = "".
Proof.
  unfold findDiskWWIDs, bind. run_simpl.
  destruct (ReadDir io "/dev/disk/by-id/" w) as [[dirs err] w1]. run_simpl.
  destruct err as [e|]; run_simpl; [reflexivity|].
  apply findDiskWWIDs_range_dm_empty.
Qed.

(** X10. [findDiskWWIDs] never reports a multipath device: for every
    WWID, handler and world, the second component of its result is the
    empty string. *)
Theorem findDiskWWIDs_never_multipath io wwid w :
  snd (value (findDiskWWIDs wwid io w)) = "".
Proof. apply findDiskWWIDs_dm_empty. Qed.

Lemma searchDisk_range_wwids_dm_empty (c : Connector W) io diskIds disk w :
  TargetWWNs c = [] ->
  snd (value (searchDisk_range c io diskIds disk "" w)) = "".
Proof.
  intros Ht. revert disk w.
  induction diskIds as [|diskID diskIds IH]; intros disk w; [reflexivity|].
  cbn [searchDisk_range]. rewrite Ht. cbn [length Nat.eqb negb].
  unfold bind. pose proof (findDiskWWIDs_dm_empty io diskID w) as Hd.
  destruct (findDiskWWIDs diskID io w) as [[disk' dm'] w1 t1].
  cbn [value snd] in Hd. subst dm'. run_simpl. cbn [String.eqb negb].
  run_simpl. apply IH.
Qed.

(** X11. With no target WWN, so that the WWIDs are searched,
    [searchDisk] never ends on a multipath device and never stops after
    the first pass: it rescans the bus exactly once, whatever the WWIDs
    resolve to. *)
Theorem searchDisk_by_wwid_always_rescans (c : Connector W) io fuel w :
  TargetWWNs c = [] ->
  (forall disk dm,
      value (searchDisk_for (S (S fuel)) c io (WWIDs c) false "" "" w)
      = Some (disk, dm) -> dm = "")
  /\ rescans (calls (searchDisk (S (S fuel)) c io w)) = 1.
Proof.
  intros Ht.
  pose proof (searchDisk_range_wwids_dm_empty c io (WWIDs c) "" w Ht) as H1.
  split.
  - intros disk dm. rewrite searchDisk_for_enough. cbv zeta. cbn [value].
    unfold two_phase_search, bind.
    destruct (searchDisk_range c io (WWIDs c) "" "" w) as [[d1 m1] w1 t1].
    cbn [value snd] in H1. subst m1. run_simpl. cbn [String.eqb]. run_simpl.
    pose proof (searchDisk_range_wwids_dm_empty c io (WWIDs c) d1
                  (final (scsiHostRescan io w1)) Ht) as H2.
    destruct (searchDisk_range c io (WWIDs c) d1 "" _) as [[d2 m2] w3 t3].
    cbn [value snd] in H2. subst m2. run_simpl.
    intros E. injection E as _ <-. reflexivity.
  - rewrite searchDisk_enough. cbv zeta. cbn [calls]. rewrite Ht.
    cbn [length Nat.eqb negb]. unfold two_phase_search, bind.
    pose proof (quiet_searchDisk_range c io (WWIDs c) "" "" w) as Hq.
    destruct (searchDisk_range c io (WWIDs c) "" "" w) as [[d1 m1] w1 t1].
    cbn [value snd calls] in H1, Hq. subst m1. run_simpl. cbn [String.eqb].
    run_simpl. rewrite !rescans_app, Hq, rescans_scsiHostRescan,
      quiet_searchDisk_range. reflexivity.
Qed.

Lemma searchDisk_range_app (c : Connector W) io pre rest disk dm w :
  snd (value (searchDisk_range c io pre disk dm w)) = "" ->
  searchDisk_range c io (pre ++ rest)%list disk dm w
  = let r := searchDisk_range c io pre disk dm w in
    let r2 := searchDisk_range c io rest (fst (value r)) "" (final r) in
    mkRun (value r2) (final r2) (calls r ++ calls r2)%list.
Proof.
  revert disk dm w. induction pre as [|id pre IH]; intros disk dm w H.
  - cbn in H. subst dm. cbn [app searchDisk_range]. cbv zeta. run_simpl.
    destruct (searchDisk_range c io rest disk "" w); reflexivity.
  - cbn [app searchDisk_range] in *. unfold bind in *.
    match goal with
    | |- context [(if ?b then ?x else ?y) w] =>
        destruct ((if b then x else y) w) as [[d m] w1 t1]
    end.
    run_simpl. cbn [value final calls fst snd] in H.
    destruct (String.eqb_spec m "") as [->|Hm]; cbn [negb] in *.
    + rewrite (IH _ _ _ H). cbv zeta. run_simpl.
      rewrite app_assoc. reflexivity.
    + cbn [ret value snd] in H. elim (Hm H).
Qed.

(** X12. A pass over the identifiers stops at the first lookup that
    reports a multipath device: when the identifiers before [id] end
    without one and the lookup of [id] reports [dm], the pass returns that
    lookup's pair and the identifiers after [id] are not looked up. *)
Theorem searchDisk_range_stops_at_multipath
  (c : Connector W) io pre id post disk dm0 w :
  let before := searchDisk_range c io pre disk dm0 w in
  let lookup :=
    (if negb (Nat.eqb (length (TargetWWNs c)) 0)
     then findDisk id (Lun c) io else findDiskWWIDs id io) (final before) in
  snd (value before) = "" ->
  snd (value lookup) <> "" ->
  searchDisk_range c io (pre ++ id :: post)%list disk dm0 w
  = mkRun (value lookup) (final lookup) (calls before ++ calls lookup)%list.
Proof.
  intros before lookup Hb Hl.
  rewrite (searchDisk_range_app c io pre (id :: post) disk dm0 w Hb).
  fold before. cbv zeta. cbn [searchDisk_range]. unfold bind. fold lookup.
  destruct (value lookup) as [d m] eqn:E. cbn [snd] in Hl.
  apply String.eqb_neq in Hl. rewrite Hl. run_simpl.
  rewrite app_nil_r. reflexivity.
Qed.

(** X13. A pass that meets no multipath device returns what the lookup
    of its last identifier returned, and nothing of what the identifiers
    before it found. *)
Theorem searchDisk_range_keeps_last_lookup
  (c : Connector W) io pre id disk dm0 w :
  let before := searchDisk_range c io pre disk dm0 w in
  let lookup :=
    (if negb (Nat.eqb (length (TargetWWNs c)) 0)
     then findDisk id (Lun c) io else findDiskWWIDs id io) (final before) in
  snd (value before) = "" ->
  value (searchDisk_range c io (pre ++ [id])%list disk dm0 w) = value lookup.
Proof.
  intros before lookup Hb.
  rewrite (searchDisk_range_app c io pre [id] disk dm0 w Hb).
  fold before. cbv zeta. cbn [value searchDisk_range]. unfold bind.
  fold lookup. destruct (value lookup) as [d m]. run_simpl.
  destruct (negb (String.eqb m "")); reflexivity.
Qed.


(** *** Failures inside the lookups *)

(** X22. A lookup takes a directory that cannot be listed for a miss:
    [findDisk] and [findDiskWWIDs] return the empty pair after that single
    call, and the error of the listing is dropped. *)
Theorem lookups_miss_on_listing_error io w :
  (forall wwn lun dirs e w1,
      ReadDir io "/dev/disk/by-path/" w = ((dirs, Some e), w1) ->
      findDisk wwn lun io w = mkRun ("", "") w1 [CallReadDir "/dev/disk/by-path/"])
  /\ (forall wwid dirs e w1,
         ReadDir io "/dev/disk/by-id/" w = ((dirs, Some e), w1) ->
         findDiskWWIDs wwid io w
         = mkRun ("", "") w1 [CallReadDir "/dev/disk/by-id/"]).
Proof.
  split.
  - intros wwn lun dirs e w1 H. unfold findDisk, bind, call_ReadDir.
    rewrite H. reflexivity.
  - intros wwid dirs e w1 H. unfold findDiskWWIDs, bind, call_ReadDir.
    rewrite H. reflexivity.
Qed.

(** X23. [findDisk] passes over a matching entry it cannot use: when the
    first entry carrying the fragment has a symlink that does not resolve,
    or resolves to a device whose parent lookup fails, the scan goes on
    with the entries after it, from the world those calls left. *)
Theorem findDisk_skips_unusable_entry io wwn lun w pre f post w1 :
  ReadDir io "/dev/disk/by-path/" w = ((pre ++ f :: post)%list, None, w1) ->
  (forall g, In g pre ->
             strings.Contains (Name g) ("-fc-0x" ++ wwn ++ "-lun-" ++ lun) = false) ->
  strings.Contains (Name f) ("-fc-0x" ++ wwn ++ "-lun-" ++ lun) = true ->
  let resolved := EvalSymlinks io ("/dev/disk/by-path/" ++ Name f) w1 in
  let parent := FindMultipathDeviceForDevice (fst (fst resolved)) io (snd resolved) in
  (snd (fst resolved) <> None ->
   value (findDisk wwn lun io w)
   = value (findDisk_range io ("-fc-0x" ++ wwn ++ "-lun-" ++ lun)
              "/dev/disk/by-path/" post (snd resolved)))
  /\ (snd (fst resolved) = None -> snd (value parent) <> None ->
      value (findDisk wwn lun io w)
      = value (findDisk_range io ("-fc-0x" ++ wwn ++ "-lun-" ++ lun)
                 "/dev/disk/by-path/" post (final parent))).
Proof.
  intros Hr Hpre Hf resolved parent.
  rewrite (findDisk_listed _ _ _ _ _ _ Hr). cbn [value].
  rewrite (findDisk_range_skip _ _ _ _ _ _ Hpre).
  cbn [findDisk_range]. cbv zeta. rewrite Hf. unfold bind at 1.
  run_simpl. fold resolved. unfold parent.
  destruct resolved as [[disk err1] w2]. run_simpl. split.
  - intros He. destruct err1 as [e1|]; [reflexivity|elim He; reflexivity].
  - intros -> Hp. run_simpl.
    destruct (FindMultipathDeviceForDevice disk io w2) as [[dm err2] w3 t3].
    cbn [value snd] in Hp. run_simpl.
    destruct err2 as [e2|]; [reflexivity|elim Hp; reflexivity].
Qed.

(** X24. [findDiskWWIDs] gives up on the first entry named "scsi-<wwid>"
    whose symlink does not resolve: it returns the empty pair at once,
    whatever entries follow. *)
Theorem findDiskWWIDs_stops_on_resolution_error io wwid w pre f post w1 disk e w2 :
  ReadDir io "/dev/disk/by-id/" w = ((pre ++ f :: post)%list, None, w1) ->
  (forall g, In g pre -> Name g <> "scsi-" ++ wwid) ->
  Name f = "scsi-" ++ wwid ->
  EvalSymlinks io ("/dev/disk/by-id/" ++ Name f) w1 = ((disk, Some e), w2) ->
  findDiskWWIDs wwid io w
  = mkRun ("", "") w2
      [CallReadDir "/dev/disk/by-id/";
       CallEvalSymlinks ("/dev/disk/by-id/" ++ Name f)].
Proof.
  intros Hr Hpre Hf He.
  rewrite (findDiskWWIDs_listed _ _ _ _ _ Hr).
  rewrite (findDiskWWIDs_range_skip _ _ _ _ _ _ Hpre).
  cbn [findDiskWWIDs_range]. cbv zeta.
  destruct (String.eqb_spec (Name f) ("scsi-" ++ wwid)) as [_|n]; [|elim (n Hf)].
  unfold bind, call_EvalSymlinks. rewrite He. reflexivity.
Qed.


(** *** Further properties of Detach *)

Lemma FindSlaveDevicesOnMultipath_range_map files devices :
  FindSlaveDevicesOnMultipath_range path_Join files devices
  = (devices ++ map (fun f => path_Join ["/dev/"; Name f]) files)%list.
Proof.
  revert devices. induction files as [|f files IH]; intros devices.
  - cbn. rewrite app_nil_r. reflexivity.
  - cbn [FindSlaveDevicesOnMultipath_range map]. rewrite IH, <- app_assoc.
    reflexivity.
Qed.

(** X14. [FindSlaveDevicesOnMultipath] touches nothing and returns no
    device for a path that does not split on "/" into exactly three
    segments with a second one of prefix "dev". *)
Theorem FindSlaveDevicesOnMultipath_bad_shape io dm w :
  length (strings.Split dm "/") <> 3
  \/ strings.HasPrefix (nth 1 (strings.Split dm "/") "") "dev" = false ->
  FindSlaveDevicesOnMultipath path_Join dm io w = mkRun [] w [].
Proof.
  intros H. unfold FindSlaveDevicesOnMultipath. cbv zeta.
  destruct H as [Hl|Hp].
  - apply Nat.eqb_neq in Hl. rewrite Hl. reflexivity.
  - rewrite Hp, orb_true_r. reflexivity.
Qed.

(** X15. For [/dev/<leaf>] with [leaf] free of slashes,
    [FindSlaveDevicesOnMultipath] lists the slaves directory of [leaf] once
    and returns [path.Join("/dev/", name)] for every entry, in listing
    order; when the listing fails it returns no device, and never an
    error. *)
Theorem FindSlaveDevicesOnMultipath_lists_slaves io leaf w :
  free_of "/" leaf = true ->
  let slavesPath := path_Join ["/sys/block/"; leaf; "/slaves/"] in
  let listing := ReadDir io slavesPath w in
  FindSlaveDevicesOnMultipath path_Join ("/dev/" ++ leaf) io w
  = mkRun
      (if is_nil (snd (fst listing))
       then map (fun f => path_Join ["/dev/"; Name f]) (fst (fst listing))
       else [])
      (snd listing) [CallReadDir slavesPath].
Proof.
  intros Hf slavesPath listing. unfold FindSlaveDevicesOnMultipath. cbv zeta.
  rewrite (Split_dev _ Hf). cbn [length Nat.eqb nth negb orb].
  change (strings.HasPrefix "dev" "dev") with true. cbn [negb].
  unfold bind. run_simpl. fold slavesPath. fold listing.
  destruct listing as [[files err] w1]. run_simpl.
  destruct err as [e|]; run_simpl; [reflexivity|].
  rewrite FindSlaveDevicesOnMultipath_range_map. reflexivity.
Qed.

(** X16. When the symlink cannot be resolved, [Detach] returns the error
    of the resolution and does nothing else: no listing, no write. *)
Theorem Detach_resolution_error
  (io : option (ioHandler W)) devicePath w dstPath e w1 :
  let h := match io with None => OSioHandler | Some h => h end in
  EvalSymlinks h devicePath w = ((dstPath, Some e), w1) ->
  Detach OSioHandler path_Join devicePath io w
  = mkRun (Some e) w1 [CallEvalSymlinks devicePath].
Proof.
  intros h He. unfold Detach. fold h. unfold bind. run_simpl.
  rewrite He. reflexivity.
Qed.

Lemma detachFCDisk_leaf_run io dir leaf w :
  strings.HasPrefix (dir ++ String "/" leaf) "/dev/" = true ->
  free_of "/" leaf = true ->
  detachFCDisk (dir ++ String "/" leaf) io w
  = mkRun None
      (snd (WriteFile io ("/sys/block/" ++ leaf ++ "/device/delete") "1"
              perm0666 w))
      [CallWriteFile ("/sys/block/" ++ leaf ++ "/device/delete") "1" perm0666].
Proof.
  intros Hp Hf. unfold detachFCDisk. rewrite Hp. cbn [negb]. cbv zeta.
  rewrite (Split_leaf dir leaf Hf).
  unfold removeFromScsiSubsystem. run_simpl. reflexivity.
Qed.

(** X17. For a path under [/dev/] that ends in a slash-free leaf,
    [detachFCDisk] makes one call, the write of "1" to
    [/sys/block/<leaf>/device/delete], and returns nil: only the last
    segment of the path names the device removed. *)
Theorem detachFCDisk_removes_leaf io dir leaf w :
  strings.HasPrefix (dir ++ String "/" leaf) "/dev/" = true ->
  free_of "/" leaf = true ->
  detachFCDisk (dir ++ String "/" leaf) io w
  = mkRun None
      (snd (WriteFile io ("/sys/block/" ++ leaf ++ "/device/delete") "1"
              perm0666 w))
      [CallWriteFile ("/sys/block/" ++ leaf ++ "/device/delete") "1" perm0666].
Proof. apply detachFCDisk_leaf_run. Qed.


(** X19. When the resolved path is a [/dev/dm-] path of which no slave
    is found (the path has the wrong shape, the slaves directory cannot be
    listed or is empty), [Detach] writes nothing and returns nil. *)
Theorem Detach_multipath_without_slaves
  (io : option (ioHandler W)) devicePath w dstPath w1 :
  let h := match io with None => OSioHandler | Some h => h end in
  EvalSymlinks h devicePath w = ((dstPath, None), w1) ->
  strings.HasPrefix dstPath "/dev/dm-" = true ->
  let found := FindSlaveDevicesOnMultipath path_Join dstPath h w1 in
  value found = [] ->
  Detach OSioHandler path_Join devicePath io w
  = mkRun None (final found) (CallEvalSymlinks devicePath :: calls found).
Proof.
  intros h He Hdm found Hv. rewrite (Detach_resolved io _ _ _ _ He). fold h.
  rewrite Hdm. fold found. cbv zeta. rewrite Hv. cbn [attempt_all].
  run_simpl. rewrite app_nil_r. reflexivity.
Qed.

Lemma detach_FindSlaveDevicesOnMultipath io dm :
  all_calls detach_call (FindSlaveDevicesOnMultipath path_Join dm io).
Proof.
  unfold FindSlaveDevicesOnMultipath. cbv zeta.
  destruct (_ || _); [apply all_calls_ret|].
  apply all_calls_bind.
  - intros w. cbn. constructor; [exact I|constructor].
  - intros [files err]. destruct (is_nil err); apply all_calls_ret.
Qed.

Lemma detach_detachFCDisk io devicePath :
  all_calls detach_call (detachFCDisk devicePath io).
Proof.
  unfold detachFCDisk. destruct (negb _); [apply all_calls_ret|]. cbv zeta.
  apply all_calls_bind; [|intros; apply all_calls_ret].
  apply all_calls_bind; [|intros; apply all_calls_ret].
  intros w. cbn. constructor; [|constructor]. eexists. reflexivity.
Qed.

Lemma detach_Detach_range io devices lastErr :
  all_calls detach_call (Detach_range io devices lastErr).
Proof.
  revert lastErr. induction devices as [|d devices IH]; intros lastErr;
    [apply all_calls_ret|].
  cbn [Detach_range]. apply all_calls_bind; [apply detach_detachFCDisk|].
  intros err. destruct (negb (is_nil err)); apply IH.
Qed.

(** X20. [Detach] never triggers a rescan and never stats a path: from
    any world, its calls are the resolution of the symlink, at most a
    directory listing, and writes of "1" to
    [/sys/block/<leaf>/device/delete]. *)
Theorem Detach_only_removes (io : option (ioHandler W)) devicePath :
  all_calls detach_call (Detach OSioHandler path_Join devicePath io).
Proof.
  unfold Detach. cbv zeta. apply all_calls_bind.
  - intros w. cbn. constructor; [exact I|constructor].
  - intros [dstPath err]. destruct (negb (is_nil err)); [apply all_calls_ret|].
    apply all_calls_bind.
    + destruct (strings.HasPrefix dstPath "/dev/dm-");
        [apply detach_FindSlaveDevicesOnMultipath|apply all_calls_ret].
    + intros devices. apply all_calls_bind; [apply detach_Detach_range|].
      intros lastErr. destruct (negb (is_nil lastErr)); apply all_calls_ret.
Qed.

(** *** The example program *)

(** X21. With a bound of at least two iterations, [main] attaches and
    then always detaches: its calls are those of [Attach] followed by those
    of [Detach] on the path [Attach] returned, and after a failed attach
    that path is the empty string. *)
Theorem main_attaches_then_detaches fuel w :
  let c :=
    mkConnector "" ["10000000c9a02834"; "10000000c9a02835"] "1" [] None in
  let attach := Attach OSioHandler (S (S fuel)) c (Some OSioHandler) w in
  exists dp err,
    value attach = Some (dp, err)
    /\ (err <> None -> dp = "")
    /\ main OSioHandler path_Join (S (S fuel)) w
       = let detach :=
           Detach OSioHandler path_Join dp (Some OSioHandler) (final attach) in
         mkRun (Some tt) (final detach) (calls attach ++ calls detach)%list.
Proof.
  intros c attach.
  assert (Ha : attach = searchDisk (S (S fuel)) c OSioHandler w).
  { unfold attach, Attach. unfold bind.
    pose proof (searchDisk_value_shape (S (S fuel)) c OSioHandler w) as Hs.
    destruct (searchDisk (S (S fuel)) c OSioHandler w) as [[[p e]|] w1 t1];
      run_simpl.
    - destruct (Hs p e eq_refl) as [[-> _]|[-> ->]]; run_simpl;
        rewrite app_nil_r; reflexivity.
    - rewrite app_nil_r. reflexivity. }
  destruct (value attach) as [[dp err]|] eqn:E.
  - exists dp, err. split; [reflexivity|]. split.
    + intros Herr. rewrite Ha in E.
      destruct (searchDisk_value_shape _ _ _ _ _ _ E) as [[-> _]|[-> _]];
        [elim Herr|]; reflexivity.
    + unfold main. cbv zeta. fold c. unfold bind at 1. fold attach.
      rewrite E. unfold bind. run_simpl. rewrite app_nil_r. reflexivity.
  - rewrite Ha in E. elim (searchDisk_returns c OSioHandler fuel w E).
Qed.


End Properties.

(** ** Runs on the in-memory host *)

(** C1. The code against the claim: with target WWNs
    [20000000c9a02834; 20000000c9a02899] and LUN 2, the lookup of the first
    WWN finds the raw disk [/dev/sdc], in the first pass and again after
    the rescan, and no multipath device is ever found; the lookup of the
    second WWN finds nothing and overwrites the disk found, so [searchDisk]
    ends with "no fc disk found". *)
Theorem searchDisk_loses_raw_device fuel :
  let c := Host.connector ["20000000c9a02834"; "20000000c9a02899"] "2" [] in
  let after_rescan := final (scsiHostRescan Host.handler Host.fabric) in
  value (findDisk "20000000c9a02834" "2" Host.handler Host.fabric)
  = ("/dev/sdc", "")
  /\ value (findDisk "20000000c9a02834" "2" Host.handler after_rescan)
     = ("/dev/sdc", "")
  /\ value (searchDisk (S (S fuel)) c Host.handler Host.fabric)
     = Some ("", fmt.Errorf "no fc disk found").
Proof.
  intros c after_rescan.
  split; [vm_compute; reflexivity|]. split; [vm_compute; reflexivity|].
  rewrite searchDisk_enough. vm_compute. reflexivity.
Qed.

(** The link of the first FC path resolves to [/dev/sda], whose name is
    [sda]. *)
Lemma findDeviceForPath_three_segments_witness :
  EvalSymlinks Host.handler
    "/dev/disk/by-path/pci-0000:05:00.0-fc-0x10000000c9a02834-lun-1" Host.fabric
  = (("/dev/sda", None), Host.fabric)
  /\ value (findDeviceForPath
             "/dev/disk/by-path/pci-0000:05:00.0-fc-0x10000000c9a02834-lun-1"
             Host.handler Host.fabric)
     = ("sda", None).
Proof.
  split; [reflexivity|].
  apply (proj1 (findDeviceForPath_three_segments Host.t Host.handler
                  "/dev/disk/by-path/pci-0000:05:00.0-fc-0x10000000c9a02834-lun-1"
                  Host.fabric "/dev/sda" Host.fabric eq_refl)
           "" "dev" "sda"); reflexivity.
Defined.

(** [sda] is a slave of [dm-0], listed after three disks and after [dm-1],
    which has no such slave. *)
Lemma FindMultipathDeviceForDevice_first_parent_witness :
  findDeviceForPath "/dev/sda" Host.handler Host.fabric
  = mkRun ("sda", None) Host.fabric [CallEvalSymlinks "/dev/sda"]
  /\ value (FindMultipathDeviceForDevice "/dev/sda" Host.handler Host.fabric)
     = ("/dev/dm-0", None).
Proof.
  split; [reflexivity|].
  apply (proj1 (proj2 (FindMultipathDeviceForDevice_first_parent
                         Host.t Host.handler "/dev/sda" Host.fabric "sda"
                         Host.fabric [CallEvalSymlinks "/dev/sda"] eq_refl))
           [mkFileInfo "sda"; mkFileInfo "sdb"; mkFileInfo "sdc"; mkFileInfo "dm-1"]
           (mkFileInfo "dm-0") [] Host.fabric Host.fabric).
  - reflexivity.
  - do 3 (apply npa_other; [reflexivity|]).
    apply npa_absent; [reflexivity|reflexivity|]. apply npa_done.
  - reflexivity.
  - reflexivity.
Defined.

(** The second by-id link resolves to [/dev/block/8:48], for which the
    parent lookup fails with an illegal path: the pair is returned. *)
Lemma findDiskWWIDs_returns_on_lookup_error_witness :
  value (FindMultipathDeviceForDevice "/dev/block/8:48" Host.handler Host.fabric)
  = ("", Some "Illegal path for device /dev/block/8:48")
  /\ value (findDiskWWIDs "3600508b400105e210000900000490001"
             Host.handler Host.fabric)
     = ("/dev/block/8:48", "").
Proof.
  split; [reflexivity|].
  refine (proj1 (findDiskWWIDs_returns_on_lookup_error
                   Host.t Host.handler "3600508b400105e210000900000490001"
                   Host.fabric
                   [mkFileInfo "scsi-3600508b400105e210000900000490000"]
                   (mkFileInfo "scsi-3600508b400105e210000900000490001") []
                   Host.fabric "/dev/block/8:48" Host.fabric
                   eq_refl _ eq_refl eq_refl)
            "" "Illegal path for device /dev/block/8:48" _).
  - intros g [<-|[]]. discriminate.
  - reflexivity.
Defined.

(** The second by-path entry carries the fragment of WWN
    [10000000c9a02835], LUN 1, after an interface prefix, and is resolved;
    the by-id entry named [scsi-<wwid>] is resolved for that WWID. *)
Lemma lookups_match_asymmetrically_witness :
  (exists t,
      calls (findDisk "10000000c9a02835" "1" Host.handler Host.fabric)
      = CallReadDir "/dev/disk/by-path/"
          :: CallEvalSymlinks
               "/dev/disk/by-path/pci-0000:05:00.1-fc-0x10000000c9a02835-lun-1"
          :: t)
  /\ (exists t,
         calls (findDiskWWIDs "3600508b400105e210000900000490000"
                  Host.handler Host.fabric)
         = CallReadDir "/dev/disk/by-id/"
             :: CallEvalSymlinks
                  "/dev/disk/by-id/scsi-3600508b400105e210000900000490000"
             :: t).
Proof.
  split.
  - refine (proj1 (proj1 (lookups_match_asymmetrically
                            Host.t Host.handler Host.fabric
                            [mkFileInfo "pci-0000:05:00.0-fc-0x10000000c9a02834-lun-1"]
                            (mkFileInfo "pci-0000:05:00.1-fc-0x10000000c9a02835-lun-1")
                            [mkFileInfo "pci-0000:05:00.0-fc-0x20000000c9a02834-lun-2"]
                            Host.fabric)
                     "10000000c9a02835" "1" eq_refl _) _).
    + intros g [<-|[]] H. apply Contains_iff in H. discriminate H.
    + exists "pci-0000:05:00.1", "". reflexivity.
  - refine (proj1 (proj2 (lookups_match_asymmetrically
                            Host.t Host.handler Host.fabric []
                            (mkFileInfo "scsi-3600508b400105e210000900000490000")
                            [mkFileInfo "scsi-3600508b400105e210000900000490001"]
                            Host.fabric)
                     "3600508b400105e210000900000490000" eq_refl _) eq_refl).
    intros g [].
Defined.

(** The hosts listed are [host5] and [host6]; the write to the scan file of
    [host5] fails and [host6] is triggered all the same. *)
Example scsiHostRescan_on_the_fabric :
  fst (WriteFile Host.handler "/sys/class/scsi_host/host5/scan" "- - -"
         perm0666 Host.fabric) <> None
  /\ calls (scsiHostRescan Host.handler Host.fabric)
     = [CallReadDir "/sys/class/scsi_host/";
        CallWriteFile "/sys/class/scsi_host/host5/scan" "- - -" perm0666;
        CallWriteFile "/sys/class/scsi_host/host6/scan" "- - -" perm0666].
Proof. split; [discriminate|reflexivity]. Qed.

(** C3, the claim as stated against the code: [mpathc] resolves to
    [/dev/dm-2] with the slaves [sda], [sdb] and [sdc].  The write that
    removes [sdb] is denied, the writes for all three are made, and [Detach]
    returns nil, not the failure of [sdb]. *)
Lemma Detach_write_failure_not_returned :
  let after_sda :=
    snd (WriteFile Host.handler "/sys/block/sda/device/delete" "1" perm0666
           multipath_host) in
  let result :=
    Detach Host.handler gopath.Join "/dev/mapper/mpathc" None multipath_host in
  value (FindSlaveDevicesOnMultipath gopath.Join "/dev/dm-2" Host.handler
           multipath_host)
  = ["/dev/sda"; "/dev/sdb"; "/dev/sdc"]
  /\ fst (WriteFile Host.handler "/sys/block/sdb/device/delete" "1" perm0666
            after_sda)
     = Some "open /sys/block/sdb/device/delete: permission denied"
  /\ calls result
     = [CallEvalSymlinks "/dev/mapper/mpathc";
        CallReadDir "/sys/block/dm-2/slaves";
        CallWriteFile "/sys/block/sda/device/delete" "1" perm0666;
        CallWriteFile "/sys/block/sdb/device/delete" "1" perm0666;
        CallWriteFile "/sys/block/sdc/device/delete" "1" perm0666]
  /\ Host.written (final result)
     = [("/sys/block/sda/device/delete", "1");
        ("/sys/block/sdc/device/delete", "1")]
  /\ value result = None
  /\ ~ (exists e, value result = Some e).
Proof.
  intros after_sda result.
  split; [reflexivity|]. split; [reflexivity|]. split; [reflexivity|].
  split; [reflexivity|]. split; [reflexivity|].
  intros [e He]. discriminate He.
Qed.

(** [mpathd] resolves to [/dev/dm-3], whose slaves give the devices
    [/dev/sdd], [/], [/dev/sde], [/dev] and [/dev/sdf].  The removals of [/]
    and of [/dev] fail; the three disks are written all the same, the one
    after both failures included; and the failure returned is that of
    [/dev], the last one, with nothing of the failure of [/]. *)
Lemma Detach_attempts_all_returns_last_witness :
  let result :=
    Detach Host.handler gopath.Join "/dev/mapper/mpathd" None multipath_host in
  EvalSymlinks Host.handler "/dev/mapper/mpathd" multipath_host
  = (("/dev/dm-3", None), multipath_host)
  /\ value (FindSlaveDevicesOnMultipath gopath.Join "/dev/dm-3" Host.handler
              multipath_host)
     = ["/dev/sdd"; "/"; "/dev/sde"; "/dev"; "/dev/sdf"]
  /\ value (detachFCDisk "/" Host.handler multipath_host)
     = fmt.Errorf "fc detach disk: invalid device name: /"
  /\ calls result
     = [CallEvalSymlinks "/dev/mapper/mpathd";
        CallReadDir "/sys/block/dm-3/slaves";
        CallWriteFile "/sys/block/sdd/device/delete" "1" perm0666;
        CallWriteFile "/sys/block/sde/device/delete" "1" perm0666;
        CallWriteFile "/sys/block/sdf/device/delete" "1" perm0666]
  /\ value result
     = fmt.Errorf ("fc: detachFCDisk failed. device: /dev err: "
                   ++ "fc detach disk: invalid device name: /dev").
Proof.
  intros result.
  pose proof (Detach_attempts_all_returns_last
                Host.t Host.handler gopath.Join None "/dev/mapper/mpathd"
                multipath_host "/dev/dm-3" multipath_host eq_refl)
    as (_ & Hcalls & _ & Hlast & _ & _ & Hwrites & Hdev).
  split; [reflexivity|]. split; [reflexivity|]. split; [reflexivity|]. split.
  - unfold result. rewrite Hcalls, Hwrites. reflexivity.
  - assert (Hdev' : strings.HasPrefix "/dev" "/dev/" = false) by reflexivity.
    refine (Hdev ["/dev/sdd"; "/"; "/dev/sde"] "/dev" ["/dev/sdf"]
              eq_refl Hdev' _).
    intros x [<-|[]]. reflexivity.
Defined.

(** The multipath device [dm-0] has the slaves [sda] and [sdb]; the write to
    the delete file of [sdb] fails, both writes are made, and [Detach]
    returns no error. *)
Lemma Detach_fails_only_on_prefix_witness :
  EvalSymlinks Host.handler "/dev/mapper/mpatha" Host.fabric
  = (("/dev/dm-0", None), Host.fabric)
  /\ fst (WriteFile Host.handler "/sys/block/sdb/device/delete" "1" perm0666
            Host.fabric) <> None
  /\ calls (Detach Host.handler gopath.Join "/dev/mapper/mpatha" None Host.fabric)
     = [CallEvalSymlinks "/dev/mapper/mpatha";
        CallReadDir "/sys/block/dm-0/slaves";
        CallWriteFile "/sys/block/sda/device/delete" "1" perm0666;
        CallWriteFile "/sys/block/sdb/device/delete" "1" perm0666]
  /\ value (Detach Host.handler gopath.Join "/dev/mapper/mpatha" None Host.fabric)
     = None.
Proof.
  split; [reflexivity|]. split; [discriminate|]. split; [reflexivity|].
  refine (proj1 (proj2
            (Detach_fails_only_on_prefix
               Host.t Host.handler gopath.Join None "/dev/mapper/mpatha"
               Host.fabric "/dev/dm-0" Host.fabric eq_refl)) _).
  intros d [<-|[<-|[]]]; reflexivity.
Defined.

(** A volume visible only after the rescan: one rescan, then the device. *)
Lemma searchDisk_rescans_at_most_once_witness :
  let c := Host.connector ["30000000c9a02835"] "3" [] in
  value (searchDisk 2 c Host.handler Host.fabric) = Some ("/dev/sdd", None)
  /\ rescans (calls (searchDisk 2 c Host.handler Host.fabric)) = 1.
Proof.
  intros c. split; [reflexivity|].
  exact (proj2 (proj2 (proj2
           (searchDisk_rescans_at_most_once Host.t c Host.handler 0 Host.fabric)))).
Defined.

(** Another volume name, and WWIDs next to target WWNs, change nothing. *)
Lemma searchDisk_noninterference_witness :
  let c := mkConnector "vol" ["10000000c9a02834"] "1" [] None in
  let c1 := mkConnector "other" ["10000000c9a02834"] "1" [] None in
  let c2 := mkConnector "vol" ["10000000c9a02834"] "1"
              ["3600508b400105e210000900000490000"] None in
  searchDisk 2 c Host.handler Host.fabric = searchDisk 2 c1 Host.handler Host.fabric
  /\ searchDisk 2 c Host.handler Host.fabric = searchDisk 2 c2 Host.handler Host.fabric
  /\ value (searchDisk 2 c Host.handler Host.fabric) = Some ("/dev/dm-0", None).
Proof.
  intros c c1 c2. split; [|split; [|reflexivity]].
  - exact (proj1 (proj1 (searchDisk_noninterference
                           Host.t c c1 Host.handler 0 Host.fabric)
                    eq_refl eq_refl eq_refl)).
  - refine (proj1 (proj2 (searchDisk_noninterference
                            Host.t c c2 Host.handler 0 Host.fabric)
                     eq_refl _ eq_refl)).
    discriminate.
Defined.

(** ** Further runs on the hosts in memory *)

Lemma findDeviceForPath_name_without_slash_witness :
  value (findDeviceForPath "/dev/mapper/mpatha" Host.handler Host.fabric)
  = ("dm-0", None)
  /\ free_of "/" "dm-0" = true.
Proof.
  split; [reflexivity|].
  exact (findDeviceForPath_name_without_slash Host.t Host.handler
           "/dev/mapper/mpatha" Host.fabric "dm-0" eq_refl).
Defined.

Lemma findDeviceForPath_dev_leaf_witness :
  EvalSymlinks Host.handler "/dev/mapper/mpatha" Host.fabric
  = (("/dev/" ++ "dm-0", None), Host.fabric)
  /\ free_of "/" "dm-0" = true
  /\ findDeviceForPath "/dev/mapper/mpatha" Host.handler Host.fabric
     = mkRun ("dm-0", None) Host.fabric [CallEvalSymlinks "/dev/mapper/mpatha"].
Proof.
  split; [reflexivity|]. split; [reflexivity|].
  exact (findDeviceForPath_dev_leaf Host.t Host.handler "/dev/mapper/mpatha"
           Host.fabric "dm-0" Host.fabric eq_refl eq_refl).
Defined.

Lemma findDeviceForPath_error_empty_witness :
  EvalSymlinks Host.handler "/dev/sdz" Host.fabric
  = (("", Some "lstat /dev/sdz: no such file or directory"), Host.fabric)
  /\ findDeviceForPath "/dev/sdz" Host.handler Host.fabric
     = mkRun ("", Some "lstat /dev/sdz: no such file or directory")
         Host.fabric [CallEvalSymlinks "/dev/sdz"].
Proof.
  split; [reflexivity|].
  exact (proj1 (findDeviceForPath_error_empty Host.t Host.handler "/dev/sdz"
                  Host.fabric)
           "" "lstat /dev/sdz: no such file or directory" Host.fabric eq_refl).
Defined.

Lemma FindMultipathDeviceForDevice_result_shape_witness :
  value (FindMultipathDeviceForDevice "/dev/sdb" Host.handler Host.fabric)
  = ("/dev/dm-0", None)
  /\ ("/dev/dm-0" = "" \/ strings.HasPrefix "/dev/dm-0" "/dev/dm-" = true).
Proof.
  split; [reflexivity|].
  exact (proj2 (FindMultipathDeviceForDevice_result_shape Host.t Host.handler
                  "/dev/sdb" Host.fabric "/dev/dm-0" None eq_refl) eq_refl).
Defined.

Lemma searchDisk_without_identifiers_witness :
  searchDisk 2 (Host.connector [] "1" []) Host.handler Host.fabric
  = mkRun (Some ("", fmt.Errorf "no fc disk found"))
      (final (scsiHostRescan Host.handler Host.fabric))
      (calls (scsiHostRescan Host.handler Host.fabric)).
Proof.
  exact (searchDisk_without_identifiers Host.t
           (Host.connector [] "1" []) Host.handler 0 Host.fabric
           eq_refl eq_refl).
Defined.

(** The WWID of [sdc] resolves and its parent lookup succeeds, so the pair
    is dropped: the search rescans and ends without a device. *)
Lemma searchDisk_by_wwid_always_rescans_witness :
  let c := Host.connector [] "" ["3600508b400105e210000900000490000"] in
  rescans (calls (searchDisk 2 c Host.handler Host.fabric)) = 1
  /\ value (searchDisk 2 c Host.handler Host.fabric)
     = Some ("", fmt.Errorf "no fc disk found").
Proof.
  intros c. split; [|reflexivity].
  exact (proj2 (searchDisk_by_wwid_always_rescans Host.t c Host.handler 0
                  Host.fabric eq_refl)).
Defined.

(** The first WWN has no entry at LUN 1, the second resolves to [sda] under
    [dm-0]; the third is not looked up. *)
Lemma searchDisk_range_stops_at_multipath_witness :
  let c := Host.connector
             ["20000000c9a02834"; "10000000c9a02834"; "10000000c9a02835"]
             "1" [] in
  let r := searchDisk_range c Host.handler (TargetWWNs c) "" "" Host.fabric in
  value r = ("/dev/sda", "/dev/dm-0")
  /\ calls r
     = [CallReadDir "/dev/disk/by-path/";
        CallReadDir "/dev/disk/by-path/";
        CallEvalSymlinks
          "/dev/disk/by-path/pci-0000:05:00.0-fc-0x10000000c9a02834-lun-1";
        CallEvalSymlinks "/dev/sda"; CallReadDir "/sys/block/";
        CallLstat "/sys/block/dm-1/slaves/sda";
        CallLstat "/sys/block/dm-0/slaves/sda"].
Proof.
  intros c r.
  assert (Hne : "/dev/dm-0" <> "") by discriminate.
  pose proof (searchDisk_range_stops_at_multipath Host.t c Host.handler
                ["20000000c9a02834"] "10000000c9a02834" ["10000000c9a02835"]
                "" "" Host.fabric eq_refl Hne) as H.
  split; [exact (f_equal (@value _ _) H)|exact (f_equal (@calls _ _) H)].
Defined.

(** The first WWN finds the raw disk [sdc], the second finds nothing: the
    pass ends with nothing. *)
Lemma searchDisk_range_keeps_last_lookup_witness :
  let c := Host.connector ["20000000c9a02834"; "20000000c9a02899"] "2" [] in
  value (searchDisk_range c Host.handler ["20000000c9a02834"] "" "" Host.fabric)
  = ("/dev/sdc", "")
  /\ value (searchDisk_range c Host.handler (TargetWWNs c) "" "" Host.fabric)
     = ("", "").
Proof.
  intros c. split; [reflexivity|].
  exact (searchDisk_range_keeps_last_lookup Host.t c Host.handler
           ["20000000c9a02834"] "20000000c9a02899" "" "" Host.fabric eq_refl).
Defined.

Lemma FindSlaveDevicesOnMultipath_bad_shape_witness :
  length (strings.Split "/dev/mapper/mpatha" "/") = 4
  /\ FindSlaveDevicesOnMultipath gopath.Join "/dev/mapper/mpatha"
       Host.handler Host.fabric
     = mkRun [] Host.fabric [].
Proof.
  split; [reflexivity|].
  refine (FindSlaveDevicesOnMultipath_bad_shape Host.t gopath.Join
            Host.handler "/dev/mapper/mpatha" Host.fabric (or_introl _)).
  discriminate.
Defined.

Lemma FindSlaveDevicesOnMultipath_lists_slaves_witness :
  free_of "/" "dm-0" = true
  /\ FindSlaveDevicesOnMultipath gopath.Join "/dev/dm-0" Host.handler Host.fabric
     = mkRun ["/dev/sda"; "/dev/sdb"] Host.fabric
         [CallReadDir "/sys/block/dm-0/slaves"].
Proof.
  split; [reflexivity|].
  exact (FindSlaveDevicesOnMultipath_lists_slaves Host.t gopath.Join
           Host.handler "dm-0" Host.fabric eq_refl).
Defined.

Lemma Detach_resolution_error_witness :
  EvalSymlinks Host.handler "/dev/mapper/mpathz" Host.fabric
  = (("", Some "lstat /dev/mapper/mpathz: no such file or directory"),
     Host.fabric)
  /\ Detach Host.handler gopath.Join "/dev/mapper/mpathz" None Host.fabric
     = mkRun (Some "lstat /dev/mapper/mpathz: no such file or directory")
         Host.fabric [CallEvalSymlinks "/dev/mapper/mpathz"].
Proof.
  split; [reflexivity|].
  exact (Detach_resolution_error Host.t Host.handler gopath.Join None
           "/dev/mapper/mpathz" Host.fabric ""
           "lstat /dev/mapper/mpathz: no such file or directory" Host.fabric
           eq_refl).
Defined.

(** Only the leaf counts: for [/dev/mapper/mpatha] the delete file written
    is that of [mpatha]. *)
Lemma detachFCDisk_removes_leaf_witness :
  strings.HasPrefix "/dev/mapper/mpatha" "/dev/" = true
  /\ free_of "/" "mpatha" = true
  /\ calls (detachFCDisk "/dev/mapper/mpatha" Host.handler Host.fabric)
     = [CallWriteFile "/sys/block/mpatha/device/delete" "1" perm0666].
Proof.
  split; [reflexivity|]. split; [reflexivity|].
  exact (f_equal (@calls _ _)
           (detachFCDisk_removes_leaf Host.t Host.handler "/dev/mapper" "mpatha"
              Host.fabric eq_refl eq_refl)).
Defined.


(** [mpathb] resolves to [/dev/dm-1], whose slaves directory cannot be
    listed: nothing is written and no error comes back. *)
Lemma Detach_multipath_without_slaves_witness :
  EvalSymlinks Host.handler "/dev/mapper/mpathb" stale_host
  = (("/dev/dm-1", None), stale_host)
  /\ value (FindSlaveDevicesOnMultipath gopath.Join "/dev/dm-1" Host.handler
              stale_host) = []
  /\ Detach Host.handler gopath.Join "/dev/mapper/mpathb" None stale_host
     = mkRun None stale_host
         [CallEvalSymlinks "/dev/mapper/mpathb";
          CallReadDir "/sys/block/dm-1/slaves"].
Proof.
  split; [reflexivity|]. split; [reflexivity|].
  exact (Detach_multipath_without_slaves Host.t Host.handler gopath.Join None
           "/dev/mapper/mpathb" stale_host "/dev/dm-1" stale_host
           eq_refl eq_refl eq_refl).
Defined.

Lemma lookups_miss_on_listing_error_witness :
  findDisk "10000000c9a02834" "1" Host.handler bare_host
  = mkRun ("", "") bare_host [CallReadDir "/dev/disk/by-path/"]
  /\ findDiskWWIDs "3600508b400105e210000900000490000" Host.handler bare_host
     = mkRun ("", "") bare_host [CallReadDir "/dev/disk/by-id/"].
Proof.
  split.
  - exact (proj1 (lookups_miss_on_listing_error Host.t Host.handler bare_host)
             "10000000c9a02834" "1" []
             "open /dev/disk/by-path/: no such file or directory" bare_host
             eq_refl).
  - exact (proj2 (lookups_miss_on_listing_error Host.t Host.handler bare_host)
             "3600508b400105e210000900000490000" []
             "open /dev/disk/by-id/: no such file or directory" bare_host
             eq_refl).
Defined.

(** The first by-path entry of the WWN dangles; the second resolves to
    [sdc] and is the one returned. *)
Lemma findDisk_skips_unusable_entry_witness :
  snd (fst (EvalSymlinks Host.handler
              "/dev/disk/by-path/pci-0000:05:00.0-fc-0x50000000c9a02834-lun-5"
              stale_host)) <> None
  /\ value (findDisk "50000000c9a02834" "5" Host.handler stale_host)
     = ("/dev/sdc", "").
Proof.
  split; [discriminate|].
  refine (eq_trans
            (proj1 (findDisk_skips_unusable_entry Host.t Host.handler
                      "50000000c9a02834" "5" stale_host []
                      (mkFileInfo "pci-0000:05:00.0-fc-0x50000000c9a02834-lun-5")
                      [mkFileInfo "pci-0000:05:00.1-fc-0x50000000c9a02834-lun-5"]
                      stale_host eq_refl _ eq_refl) _)
            eq_refl).
  - intros g [].
  - discriminate.
Defined.

(** The first by-id entry of the WWID dangles: the lookup ends there. *)
Lemma findDiskWWIDs_stops_on_resolution_error_witness :
  findDiskWWIDs "3600508b400105e210000900000490005" Host.handler stale_host
  = mkRun ("", "") stale_host
      [CallReadDir "/dev/disk/by-id/";
       CallEvalSymlinks "/dev/disk/by-id/scsi-3600508b400105e210000900000490005"].
Proof.
  refine (findDiskWWIDs_stops_on_resolution_error Host.t Host.handler
            "3600508b400105e210000900000490005" stale_host []
            (mkFileInfo "scsi-3600508b400105e210000900000490005")
            [mkFileInfo "scsi-3600508b400105e210000900000490006"]
            stale_host ""
            "lstat /dev/disk/by-id/scsi-3600508b400105e210000900000490005: no such file or directory"
            stale_host eq_refl _ eq_refl eq_refl).
  intros g [].
Defined.
